(** * Hexapod control core: a shallow embedding of [software/hexapod/hexapod.py]
    and [software/hexapod/rpc_server.py], with the properties of the
    specification that are stated about them.

    Python floats are IEEE 754 binary64 numbers, which is what Rocq's primitive
    [float] is, so the PID controller is embedded over [PrimFloat] with the
    operations in the order the source applies them.  Python integers are [Z].
    Mutable attributes become record fields, and a method becomes a function
    in a state-and-exception monad in which a raised exception keeps the
    mutations made before it, as in Python. *)

From Stdlib Require Import ZArith Lia Bool List String Ascii Floats.
From Stdlib Require Import DecimalString.
From stdpp Require Import base list.
Import ListNotations.

(* A decimal literal denotes the nearest binary64 number, as in Python. *)
Set Warnings "-inexact-float".

Local Open Scope string_scope.
Local Open Scope Z_scope.

(** ** Exceptions and the method monad *)

(** The exception classes the embedded code raises, each with its message. *)
Inductive exn : Type :=
| ValueError (msg : string)
| RuntimeError (msg : string)
| IndexError (msg : string)
| TypeError (msg : string)
| OverflowError (msg : string)
| ZeroDivisionError (msg : string)
| AttributeError (msg : string)
| UnicodeDecodeError (msg : string).

(** [type(exc).__name__] *)
Definition exn_name (e : exn) : string :=
  match e with
  | ValueError _ => "ValueError"
  | RuntimeError _ => "RuntimeError"
  | IndexError _ => "IndexError"
  | TypeError _ => "TypeError"
  | OverflowError _ => "OverflowError"
  | ZeroDivisionError _ => "ZeroDivisionError"
  | AttributeError _ => "AttributeError"
  | UnicodeDecodeError _ => "UnicodeDecodeError"
  end.

(** [str(exc)] *)
Definition exn_msg (e : exn) : string :=
  match e with
  | ValueError m | RuntimeError m | IndexError m
  | TypeError m | OverflowError m | ZeroDivisionError m
  | AttributeError m | UnicodeDecodeError m => m
  end.

(** A method over a state [S]: it returns a value or raises, and in both cases
    leaves a state behind. *)
Definition M (S A : Type) : Type := S -> (exn + A) * S.

Definition ret {S A} (a : A) : M S A := fun s => (inr a, s).
Definition raise {S A} (e : exn) : M S A := fun s => (inl e, s).
Definition bind {S A B} (m : M S A) (k : A -> M S B) : M S B :=
  fun s => match m s with
           | (inr a, s') => k a s'
           | (inl e, s') => (inl e, s')
           end.
Definition get {S} : M S S := fun s => (inr s, s).
Definition modify {S} (f : S -> S) : M S unit := fun s => (inr tt, f s).
(** A pure computation that may raise. *)
Definition lift {S A} (r : exn + A) : M S A := fun s => (r, s).

Declare Scope method_scope.
Delimit Scope method_scope with method.
Notation "x <- m ;; k" := (bind m (fun x => k))
  (at level 100, m at next level, right associativity) : method_scope.
Notation "m ;;; k" := (bind m (fun _ => k))
  (at level 100, right associativity) : method_scope.

(** [for i, x in enumerate(xs): body(i, x)], from index [i]. *)
Fixpoint for_enumerate {S A} (body : nat -> A -> M S unit) (i : nat) (xs : list A)
  : M S unit :=
  match xs with
  | [] => ret tt
  | x :: xs' => bind (body i x) (fun _ => for_enumerate body (Datatypes.S i) xs')
  end.

(** A method that leaves a reading [f] of the state alone, however it ends. *)
Definition preserves {S A X} (f : S -> X) (m : M S A) : Prop :=
  forall s, f (snd (m s)) = f s.

(** ** Numbers as Python has them *)

(** [str(n)] for an integer. *)
Definition str (n : Z) : string := NilZero.string_of_int (Z.to_int n).

Module PyFloat.

(** [int(x)]: truncation toward zero; not a number and the infinities raise. *)
Definition to_int (x : float) : exn + Z :=
  match Prim2SF x with
  | S754_nan => inl (ValueError "cannot convert float NaN to integer")
  | S754_infinity _ => inl (OverflowError "cannot convert float infinity to integer")
  | S754_zero _ => inr 0
  | S754_finite s m e => inr (cond_Zopp s (Z.shiftl (Zpos m) e))
  end.

(** [round(x)] with one argument: the nearest integer, ties to the even one. *)
Definition round (x : float) : exn + Z :=
  match Prim2SF x with
  | S754_nan => inl (ValueError "cannot convert float NaN to integer")
  | S754_infinity _ => inl (OverflowError "cannot convert float infinity to integer")
  | S754_zero _ => inr 0
  | S754_finite s m e =>
      let q := Z.shiftl (Zpos m) e in
      if 0 <=? e then inr (cond_Zopp s q)
      else
        let d := 2 ^ (- e) in
        let r := Zpos m mod d in
        let half := d / 2 in
        let up := (half <? r) || ((r =? half) && Z.odd q) in
        inr (cond_Zopp s (if up then q + 1 else q))
  end.

(** [float(n)], as the arithmetic operators apply it to an integer operand:
    the nearest binary64 number, [OverflowError] beyond the finite range. *)
Definition of_int (n : Z) : exn + float :=
  match binary_normalize prec emax n 0 false with
  | S754_infinity _ => inl (OverflowError "int too large to convert to float")
  | sf => inr (SF2Prim sf)
  end.

(** A float that is a number and not an infinity. *)
Definition finite (x : float) : bool :=
  match Prim2SF x with
  | S754_zero _ | S754_finite _ _ _ => true
  | _ => false
  end.

(** [x / y] on floats. *)
Definition div (x y : float) : exn + float :=
  if (y =? 0)%float then inl (ZeroDivisionError "float division by zero")
  else inr (x / y)%float.

End PyFloat.

(** ** The tracking PID controller ([_TrackingPID]) *)

Module PID.

Local Open Scope float_scope.

(** The attributes [__init__] sets.  The tracking loop feeds [compute] Python
    integers (a pixel column, a rounded distance) and the device stores the
    integers 180 and 60 in [set_point]; an integer operand of a float
    operation is converted to the float of the same value, and below 2^53
    integer and float subtraction agree, so every attribute is a [float]. *)
Record _TrackingPID : Type := mk {
  set_point : float;
  kp : float;
  ki : float;
  kd : float;
  last_error : float;
  i_error : float;
  i_saturation : float
}.

(** [_TrackingPID.__init__(p, i, d)] *)
Definition init (p i d : float) : _TrackingPID :=
  {| set_point := 0; kp := p; ki := i; kd := d;
     last_error := 0; i_error := 0; i_saturation := 10 |}.

Definition set_i_error (v : float) (self : _TrackingPID) : _TrackingPID :=
  mk (set_point self) (kp self) (ki self) (kd self) (last_error self) v
     (i_saturation self).

Definition set_last_error (v : float) (self : _TrackingPID) : _TrackingPID :=
  mk (set_point self) (kp self) (ki self) (kd self) v (i_error self)
     (i_saturation self).

(** The assignment [pid.set_point = v] the device makes after construction. *)
Definition set_set_point (v : float) (self : _TrackingPID) : _TrackingPID :=
  mk v (kp self) (ki self) (kd self) (last_error self) (i_error self)
     (i_saturation self).

(** [_TrackingPID.compute(feedback_val)], statement by statement; [a > b] is
    [b < a]. *)
Definition compute (self : _TrackingPID) (feedback_val : float)
  : float * _TrackingPID :=
  let error := set_point self - feedback_val in
  let p_error := kp self * error in
  let self := set_i_error (i_error self + error) self in
  let d_error := kd self * (error - last_error self) in
  let self :=
    if i_error self <? - i_saturation self
    then set_i_error (- i_saturation self) self
    else if i_saturation self <? i_error self
         then set_i_error (i_saturation self) self
         else self in
  let output := p_error + (ki self * i_error self) + d_error in
  let self := set_last_error error self in
  (- output, self).

(** The controller after each call of a sequence of [compute] calls. *)
Fixpoint trace (self : _TrackingPID) (feedback : list float) : list _TrackingPID :=
  match feedback with
  | [] => []
  | v :: rest => let self' := snd (compute self v) in self' :: trace self' rest
  end.

(** [x] clamped to [[lo, hi]], for comparable operands. *)
Definition clamp (x lo hi : float) : float :=
  if x <? lo then lo else if hi <? x then hi else x.

(** The accumulator is neither below -10.0 nor above 10.0. *)
Definition never_exceeds (x : float) : Prop :=
  (x <? -10) = false /\ (10 <? x) = false.

(** The accumulator is a number of the interval [[-10.0, 10.0]]. *)
Definition in_band (x : float) : Prop :=
  (-10 <=? x) = true /\ (x <=? 10) = true.

End PID.

(** ** Python sequences *)

Module PySeq.

(** [xs[i]]: a negative index counts from the end, an index outside the
    sequence raises [IndexError]. *)
Definition position {A} (xs : list A) (i : Z) : option nat :=
  let n := Z.of_nat (length xs) in
  if (0 <=? i) && (i <? n) then Some (Z.to_nat i)
  else if (- n <=? i) && (i <? 0) then Some (Z.to_nat (n + i))
  else None.

Definition getitem {A} (xs : list A) (i : Z) : exn + A :=
  match position xs i with
  | Some k =>
      match xs !! k with
      | Some x => inr x
      | None => inl (IndexError "list index out of range")
      end
  | None => inl (IndexError "list index out of range")
  end.

(** [xs[i] = v] *)
Definition setitem {A} (xs : list A) (i : Z) (v : A) : exn + list A :=
  match position xs i with
  | Some k => inr (<[k:=v]> xs)
  | None => inl (IndexError "list assignment index out of range")
  end.

End PySeq.

(** ** The collaborators outside the repository's source *)

(** What [hexapod.py] imports and only uses: the command names of
    [command.COMMAND], and [Control.check_point_validity], which the
    specification gives as a pure predicate over the table of the six leg
    positions. *)
Class Collaborators : Type := {
  CMD_MOVE : string;
  CMD_BALANCE : string;
  CMD_POSITION : string;
  CMD_ATTITUDE : string;
  check_point_validity : list (list Z) -> bool
}.

(** Calls into the servo driver and the gait executor, in the order made. *)
Inductive hw_event : Type :=
| ServoAngle (channel angle : Z)
| LegAngles (legs : list (list Z)).

(** The part of [Control] the device reads and writes. *)
Record Control : Type := mkControl {
  command_queue : list string;
  timeout : float;
  leg_positions : list (list Z);
  calibration_angles : list (list Z);
  servo_power_disable : bool;
  condition_thread_alive : bool;
  hw_log : list hw_event
}.

Definition set_command_queue (q : list string) (c : Control) : Control :=
  mkControl q (timeout c) (leg_positions c) (calibration_angles c)
    (servo_power_disable c) (condition_thread_alive c) (hw_log c).
Definition set_timeout (t : float) (c : Control) : Control :=
  mkControl (command_queue c) t (leg_positions c) (calibration_angles c)
    (servo_power_disable c) (condition_thread_alive c) (hw_log c).
Definition set_leg_positions_table (t : list (list Z)) (c : Control) : Control :=
  mkControl (command_queue c) (timeout c) t (calibration_angles c)
    (servo_power_disable c) (condition_thread_alive c) (hw_log c).
Definition set_servo_power_disable (b : bool) (c : Control) : Control :=
  mkControl (command_queue c) (timeout c) (leg_positions c) (calibration_angles c)
    b (condition_thread_alive c) (hw_log c).
Definition set_condition_thread_alive (b : bool) (c : Control) : Control :=
  mkControl (command_queue c) (timeout c) (leg_positions c) (calibration_angles c)
    (servo_power_disable c) b (hw_log c).
Definition log_event (e : hw_event) (c : Control) : Control :=
  mkControl (command_queue c) (timeout c) (leg_positions c) (calibration_angles c)
    (servo_power_disable c) (condition_thread_alive c) (hw_log c ++ [e]).

(** Modelled from the spec: [Control.restrict_value] is not under the
    repository's source; the specification writes it [clamp(v, lo, hi)]. *)
Definition restrict_value (value lo hi : Z) : Z :=
  if value <? lo then lo else if hi <? value then hi else value.

(** [clamp(v, lo, hi)] as the specification's formulas use it. *)
Definition clamp (v lo hi : Z) : Z := Z.max lo (Z.min hi v).

(** The tracking loop's thread object. *)
Inductive thread_state : Type :=
| Running
| Exited
| Killed.

Definition is_alive (t : option thread_state) : bool :=
  match t with
  | Some Running => true
  | _ => false
  end.

(** [HexapodDevice]: the attributes of [__init__] that the embedded methods
    touch, and the camera's [streaming] flag. *)
Record HexapodDevice : Type := mkDevice {
  control : Control;
  camera_streaming : bool;
  connected : bool;
  move_speed : Z;
  _ball_thread : option thread_state;
  _ball_stop : bool;
  _ball_active : bool;
  _ball_tracking : bool;
  _pid_x : PID._TrackingPID;
  _pid_distance : PID._TrackingPID;
  _moving : bool
}.

Definition upd_control (f : Control -> Control) (d : HexapodDevice) : HexapodDevice :=
  mkDevice (f (control d)) (camera_streaming d) (connected d) (move_speed d)
    (_ball_thread d) (_ball_stop d) (_ball_active d) (_ball_tracking d)
    (_pid_x d) (_pid_distance d) (_moving d).
Definition set_camera_streaming (b : bool) (d : HexapodDevice) : HexapodDevice :=
  mkDevice (control d) b (connected d) (move_speed d)
    (_ball_thread d) (_ball_stop d) (_ball_active d) (_ball_tracking d)
    (_pid_x d) (_pid_distance d) (_moving d).
Definition set_connected (b : bool) (d : HexapodDevice) : HexapodDevice :=
  mkDevice (control d) (camera_streaming d) b (move_speed d)
    (_ball_thread d) (_ball_stop d) (_ball_active d) (_ball_tracking d)
    (_pid_x d) (_pid_distance d) (_moving d).
Definition set_move_speed (v : Z) (d : HexapodDevice) : HexapodDevice :=
  mkDevice (control d) (camera_streaming d) (connected d) v
    (_ball_thread d) (_ball_stop d) (_ball_active d) (_ball_tracking d)
    (_pid_x d) (_pid_distance d) (_moving d).
Definition set__ball_thread (t : option thread_state) (d : HexapodDevice)
  : HexapodDevice :=
  mkDevice (control d) (camera_streaming d) (connected d) (move_speed d)
    t (_ball_stop d) (_ball_active d) (_ball_tracking d)
    (_pid_x d) (_pid_distance d) (_moving d).
Definition set__ball_stop (b : bool) (d : HexapodDevice) : HexapodDevice :=
  mkDevice (control d) (camera_streaming d) (connected d) (move_speed d)
    (_ball_thread d) b (_ball_active d) (_ball_tracking d)
    (_pid_x d) (_pid_distance d) (_moving d).
Definition set__ball_active (b : bool) (d : HexapodDevice) : HexapodDevice :=
  mkDevice (control d) (camera_streaming d) (connected d) (move_speed d)
    (_ball_thread d) (_ball_stop d) b (_ball_tracking d)
    (_pid_x d) (_pid_distance d) (_moving d).
Definition set__ball_tracking (b : bool) (d : HexapodDevice) : HexapodDevice :=
  mkDevice (control d) (camera_streaming d) (connected d) (move_speed d)
    (_ball_thread d) (_ball_stop d) (_ball_active d) b
    (_pid_x d) (_pid_distance d) (_moving d).
Definition set__pid_x (p : PID._TrackingPID) (d : HexapodDevice) : HexapodDevice :=
  mkDevice (control d) (camera_streaming d) (connected d) (move_speed d)
    (_ball_thread d) (_ball_stop d) (_ball_active d) (_ball_tracking d)
    p (_pid_distance d) (_moving d).
Definition set__pid_distance (p : PID._TrackingPID) (d : HexapodDevice)
  : HexapodDevice :=
  mkDevice (control d) (camera_streaming d) (connected d) (move_speed d)
    (_ball_thread d) (_ball_stop d) (_ball_active d) (_ball_tracking d)
    (_pid_x d) p (_moving d).
Definition set__moving (b : bool) (d : HexapodDevice) : HexapodDevice :=
  mkDevice (control d) (camera_streaming d) (connected d) (move_speed d)
    (_ball_thread d) (_ball_stop d) (_ball_active d) (_ball_tracking d)
    (_pid_x d) (_pid_distance d) b.

(** [HexapodDevice._LEG_CHANNELS] *)
Definition _LEG_CHANNELS : list (list Z) :=
  [ [15; 14; 13];
    [12; 11; 10];
    [9; 8; 31];
    [22; 23; 27];
    [19; 20; 21];
    [16; 17; 18] ].

(** [HexapodDevice.__init__], over the [Control] and camera it constructs. *)
Definition new_device (c : Control) (streaming : bool) : HexapodDevice :=
  {| control := c;
     camera_streaming := streaming;
     connected := false;
     move_speed := 8;
     _ball_thread := None;
     _ball_stop := false;
     _ball_active := false;
     _ball_tracking := false;
     _pid_x := PID.set_set_point 180 (PID.init 0.05 0.005 0.02);
     _pid_distance := PID.set_set_point 60 (PID.init 0.3 0.05 0.05);
     _moving := false |}.

(** ** The command facade and the tracking task *)

Section Facade.
Context {ext : Collaborators}.

(** Publishing a command: [control.command_queue = q], then
    [control.timeout = time.time()], with [now] the clock's reading. *)
Definition publish (now : float) (q : list string) (d : HexapodDevice)
  : HexapodDevice :=
  upd_control (set_timeout now) (upd_control (set_command_queue q) d).

(** [servo.set_servo_angle(channel, angle)] *)
Definition set_servo_angle (channel angle : Z) (d : HexapodDevice) : HexapodDevice :=
  upd_control (log_event (ServoAngle channel angle)) d.

(** [HexapodDevice.connect] *)
Definition connect (d : HexapodDevice) : HexapodDevice :=
  let d := if negb (condition_thread_alive (control d))
           then upd_control (set_condition_thread_alive true) d else d in
  let d := if negb (camera_streaming d) then set_camera_streaming true d else d in
  set_connected true d.

(** [HexapodDevice.servopower] *)
Definition servopower (on : bool) (d : HexapodDevice) : HexapodDevice :=
  if on then upd_control (set_servo_power_disable false) d
  else upd_control (set_servo_power_disable true) d.

(** [HexapodDevice.speed] *)
Definition speed (tempo : Z) (d : HexapodDevice) : Z * HexapodDevice :=
  let d := set_move_speed tempo d in
  (move_speed d, d).

(** [HexapodDevice.move] *)
Definition move (now : float) (gait x y angle : Z) (d : HexapodDevice)
  : HexapodDevice :=
  let d := set__ball_active false d in
  let d := set__moving (negb ((x =? 0) && (y =? 0) && (angle =? 0))) d in
  let cmd_list :=
    [CMD_MOVE; str gait; str x; str y; str (move_speed d); str angle] in
  publish now cmd_list d.

(** [HexapodDevice.stop] *)
Definition stop (now : float) (d : HexapodDevice) : HexapodDevice :=
  let d := set__moving false d in
  move now 1 0 0 0 d.

(** [HexapodDevice.balance] *)
Definition balance (now : float) (on : bool) (d : HexapodDevice) : HexapodDevice :=
  let state := if on then "1" else "0" in
  publish now [CMD_BALANCE; state] d.

(** [HexapodDevice.position] *)
Definition position (now : float) (x y z : Z) (d : HexapodDevice) : HexapodDevice :=
  publish now [CMD_POSITION; str x; str y; str z] d.

(** [HexapodDevice.attitude] *)
Definition attitude (now : float) (roll pitch yaw : Z) (d : HexapodDevice)
  : HexapodDevice :=
  publish now [CMD_ATTITUDE; str roll; str pitch; str yaw] d.

(** [HexapodDevice.head_vertical] and [HexapodDevice.head_horizontal] *)
Definition head_vertical (angle : Z) (d : HexapodDevice) : HexapodDevice :=
  set_servo_angle 0 angle d.
Definition head_horizontal (angle : Z) (d : HexapodDevice) : HexapodDevice :=
  set_servo_angle 1 angle d.

(** [HexapodDevice.ball_start]; a thread that is started is [Running]. *)
Definition ball_start (d : HexapodDevice) : HexapodDevice :=
  let d := head_vertical 90 d in
  let d := head_horizontal 90 d in
  let d := set__ball_active true d in
  let d := set__ball_tracking true d in
  let d := set__ball_stop false d in
  if negb (is_alive (_ball_thread d)) then set__ball_thread (Some Running) d else d.

(** [HexapodDevice.ball_stop].  [exits] says whether the loop leaves within the
    one second that [join] waits; when it does not, [stop_thread] ends it. *)
Definition ball_stop (now : float) (exits : bool) (d : HexapodDevice)
  : HexapodDevice :=
  let d := set__ball_active false d in
  let d := set__ball_tracking false d in
  let d := set__ball_stop true d in
  let d :=
    if is_alive (_ball_thread d)
    then if exits then set__ball_thread (Some Exited) d
         else set__ball_thread (Some Killed) d
    else d in
  stop now d.

(** [HexapodDevice.disconnect] *)
Definition disconnect (now : float) (exits : bool) (d : HexapodDevice)
  : HexapodDevice :=
  let d := ball_stop now exits d in
  let d := servopower false d in
  let d := if camera_streaming d then set_camera_streaming false d else d in
  set_connected false d.

(** [HexapodDevice.ball_state] *)
Definition ball_state (d : HexapodDevice) : string :=
  if _ball_active d
  then if _ball_tracking d then "ongoing" else "completed"
  else "not tracking".

(** The tracking task runs [_ball_tracking_loop]: its thread is alive and the
    stop event is clear, so the [while] takes another turn. *)
Definition loop_running (d : HexapodDevice) : bool :=
  is_alive (_ball_thread d) && negb (_ball_stop d).

(** What a tick never assigns: the tracking-active flag, the thread, the
    stop event and the moving flag. *)
Definition task_flags (d : HexapodDevice)
  : bool * option thread_state * bool * bool :=
  (_ball_active d, _ball_thread d, _ball_stop d, _moving d).

(** What the vision pipeline measured of the largest contour: the radius of
    its enclosing circle and the moments [m00], [m10], [m01]. *)
Record contour : Type := mkContour {
  radius_of : float;
  m00 : float;
  m10 : float;
  m01 : float
}.

(** The loop body from [center = None] to the [radius < min_radius] test:
    the centre, when there is a target, and the radius. *)
Definition locate (found : option contour) : exn + (option (Z * Z) * float) :=
  let min_radius := 7%float in
  match found with
  | None => inr (None, 0%float)
  | Some c =>
      let radius := radius_of c in
      if (0 <? m00 c)%float then
        match PyFloat.div (m10 c) (m00 c) with
        | inl e => inl e
        | inr qx =>
            match PyFloat.to_int qx with
            | inl e => inl e
            | inr cx =>
                match PyFloat.div (m01 c) (m00 c) with
                | inl e => inl e
                | inr qy =>
                    match PyFloat.to_int qy with
                    | inl e => inl e
                    | inr cy =>
                        if (radius <? min_radius)%float then inr (None, radius)
                        else inr (Some (cx, cy), radius)
                    end
                end
            end
        end
      else inr (None, radius)
  end.

(** [pid.compute(n)] for an integer feedback, on the x-axis controller. *)
Definition compute_x (n : Z) : M HexapodDevice float :=
  (v <- lift (PyFloat.of_int n) ;;
   d <- get ;;
   let '(out, pid) := PID.compute (_pid_x d) v in
   modify (set__pid_x pid) ;;;
   ret out)%method.

(** The same on the distance controller. *)
Definition compute_distance (n : Z) : M HexapodDevice float :=
  (v <- lift (PyFloat.of_int n) ;;
   d <- get ;;
   let '(out, pid) := PID.compute (_pid_distance d) v in
   modify (set__pid_distance pid) ;;;
   ret out)%method.

(** The loop body from [self._ball_tracking = True] to the last assignment of
    [control.timeout]: one tick, for a located [center] and [radius]. *)
Definition tick (now : float) (center : option (Z * Z)) (radius : float)
  : M HexapodDevice unit :=
  (modify (set__ball_tracking true) ;;;
   match center with
   | Some (cx, _) =>
       ratio <- lift (PyFloat.div 2700 (2 * radius)) ;;
       distance <- lift (PyFloat.round ratio) ;;
       angle_out <- compute_x cx ;;
       step_out <- compute_distance distance ;;
       angle_int <- lift (PyFloat.to_int angle_out) ;;
       let angle := Z.max (-10) (Z.min 10 angle_int) in
       step_int <- lift (PyFloat.to_int step_out) ;;
       let step := Z.max (-15) (Z.min 15 step_int) in
       d <- get ;;
       modify (publish now [CMD_MOVE; "1"; "0"; str step; str (move_speed d); str angle]) ;;;
       if (step =? 0) && (angle =? 0) then modify (set__ball_tracking false)
       else ret tt
   | None =>
       d <- get ;;
       modify (publish now [CMD_MOVE; "1"; "0"; "0"; str (move_speed d); "0"])
   end)%method.

End Facade.

(** ** The leg safety layer *)

Section Legs.
Context {ext : Collaborators}.

Local Open Scope method_scope.

(** [HexapodDevice._assert_leg_index] *)
Definition _assert_leg_index (leg_index : Z) : M HexapodDevice unit :=
  if (leg_index <? 0) || (5 <? leg_index)
  then raise (ValueError "leg_index must be in [0, 5]")
  else ret tt.

(** [HexapodDevice._ensure_manual_leg_allowed] *)
Definition _ensure_manual_leg_allowed : M HexapodDevice unit :=
  d <- get ;;
  if _moving d || _ball_active d
  then raise (RuntimeError "Stop motion and ball tracking before manual leg control.")
  else ret tt.

(** [control.leg_positions[i] = v] *)
Definition assign_leg (i : Z) (v : list Z) : M HexapodDevice unit :=
  d <- get ;;
  t <- lift (PySeq.setitem (leg_positions (control d)) i v) ;;
  modify (upd_control (set_leg_positions_table t)).

(** [control.set_leg_angles()]: the executor drives the servos from the
    table as it stands. *)
Definition set_leg_angles : M HexapodDevice unit :=
  modify (fun d => upd_control (log_event (LegAngles (leg_positions (control d)))) d).

(** [HexapodDevice.set_leg_position] *)
Definition set_leg_position (leg_index x y z : Z) : M HexapodDevice unit :=
  _ensure_manual_leg_allowed ;;;
  _assert_leg_index leg_index ;;;
  d <- get ;;
  prev <- lift (PySeq.getitem (leg_positions (control d)) leg_index) ;;
  assign_leg leg_index [x; y; z] ;;;
  d <- get ;;
  if negb (check_point_validity (leg_positions (control d)))
  then assign_leg leg_index prev ;;;
       raise (ValueError "Leg position out of range.")
  else set_leg_angles.

(** An item of a batch entry as [int()] takes it: the integer [int()] returns
    (the item is an integer, a float with that integer part, a numeric
    string), or the exception [int()] raises on it ([ValueError] on a string
    that is no number or on a NaN, [TypeError] on [None] or a list,
    [OverflowError] on an infinity). *)
Inductive coordinate : Type :=
| Int (n : Z)
| NotInt (e : exn).

(** [int(item)] *)
Definition coerce (item : coordinate) : exn + Z :=
  match item with
  | Int n => inr n
  | NotInt e => inl e
  end.

(** A batch whose items are integers. *)
Definition ints (batch : list (list Z)) : list (list coordinate) :=
  map (map Int) batch.

(** The body of the loop in [set_leg_positions], with the snapshot [prev]:
    the length test, then the three [int()] from left to right, then the
    assignment of the row. *)
Definition positions_body (prev : list (list Z)) (i : nat)
    (position : list coordinate) : M HexapodDevice unit :=
  match position with
  | [p0; p1; p2] =>
      v0 <- lift (coerce p0) ;;
      v1 <- lift (coerce p1) ;;
      v2 <- lift (coerce p2) ;;
      assign_leg (Z.of_nat i) [v0; v1; v2]
  | _ => modify (upd_control (set_leg_positions_table prev)) ;;;
         raise (ValueError "Each position must be [x, y, z].")
  end.

(** [HexapodDevice.set_leg_positions] *)
Definition set_leg_positions (positions : list (list coordinate))
  : M HexapodDevice unit :=
  _ensure_manual_leg_allowed ;;;
  if negb (Nat.eqb (length positions) 6)
  then raise (ValueError "positions must contain 6 items.")
  else
    d <- get ;;
    let prev := leg_positions (control d) in
    for_enumerate (positions_body prev) 0%nat positions ;;;
    d <- get ;;
    if negb (check_point_validity (leg_positions (control d)))
    then modify (upd_control (set_leg_positions_table prev)) ;;;
         raise (ValueError "Leg positions out of range.")
    else set_leg_angles.

(** [for channel, angle in zip(channels, angles): servo.set_servo_angle(...)] *)
Fixpoint write_servos (channels angles : list Z) : M HexapodDevice unit :=
  match channels, angles with
  | channel :: channels', angle :: angles' =>
      modify (set_servo_angle channel angle) ;;; write_servos channels' angles'
  | _, _ => ret tt
  end.

(** [HexapodDevice.set_leg_servo_angles] *)
Definition set_leg_servo_angles (leg_index a b c : Z) : M HexapodDevice unit :=
  _ensure_manual_leg_allowed ;;;
  _assert_leg_index leg_index ;;;
  channels <- lift (PySeq.getitem _LEG_CHANNELS leg_index) ;;
  let angles := [a; b; c] in
  write_servos channels angles.

(** The body of the loop in [set_leg_servo_angles_all]. *)
Definition servo_angles_body (leg_index : nat) (leg_angles : list Z)
  : M HexapodDevice unit :=
  match leg_angles with
  | [a; b; c] => set_leg_servo_angles (Z.of_nat leg_index) a b c
  | _ => raise (ValueError "Each angle entry must be [a, b, c].")
  end.

(** [HexapodDevice.set_leg_servo_angles_all] *)
Definition set_leg_servo_angles_all (angles : list (list Z)) : M HexapodDevice unit :=
  _ensure_manual_leg_allowed ;;;
  if negb (Nat.eqb (length angles) 6)
  then raise (ValueError "angles must contain 6 items.")
  else for_enumerate servo_angles_body 0%nat angles.

(** [HexapodDevice._apply_calibration] *)
Definition _apply_calibration (leg_index a b c : Z) : M HexapodDevice (list Z) :=
  d <- get ;;
  calib <- lift (PySeq.getitem (calibration_angles (control d)) leg_index) ;;
  if leg_index <? 3 then
    c0 <- lift (PySeq.getitem calib 0) ;;
    let adj_a := restrict_value (a + c0) 0 180 in
    c1 <- lift (PySeq.getitem calib 1) ;;
    let adj_b := restrict_value (90 - (b + c1)) 0 180 in
    c2 <- lift (PySeq.getitem calib 2) ;;
    let adj_c := restrict_value (c + c2) 0 180 in
    ret [adj_a; adj_b; adj_c]
  else
    c0 <- lift (PySeq.getitem calib 0) ;;
    let adj_a := restrict_value (a + c0) 0 180 in
    c1 <- lift (PySeq.getitem calib 1) ;;
    let adj_b := restrict_value (90 + b + c1) 0 180 in
    c2 <- lift (PySeq.getitem calib 2) ;;
    let adj_c := restrict_value (180 - (c + c2)) 0 180 in
    ret [adj_a; adj_b; adj_c].

(** [HexapodDevice.set_leg_joint_angles]; [*servo_angles] spreads the three
    calibrated angles over [a], [b], [c]. *)
Definition set_leg_joint_angles (leg_index a b c : Z) : M HexapodDevice unit :=
  _ensure_manual_leg_allowed ;;;
  _assert_leg_index leg_index ;;;
  servo_angles <- _apply_calibration leg_index a b c ;;
  match servo_angles with
  | [sa; sb; sc] => set_leg_servo_angles leg_index sa sb sc
  | _ => raise (TypeError "set_leg_servo_angles() takes 5 positional arguments")
  end.

(** The body of the loop in [set_leg_joint_angles_all]. *)
Definition joint_angles_body (leg_index : nat) (leg_angles : list Z)
  : M HexapodDevice unit :=
  match leg_angles with
  | [a; b; c] => set_leg_joint_angles (Z.of_nat leg_index) a b c
  | _ => raise (ValueError "Each angle entry must be [a, b, c].")
  end.

(** [HexapodDevice.set_leg_joint_angles_all] *)
Definition set_leg_joint_angles_all (angles : list (list Z)) : M HexapodDevice unit :=
  _ensure_manual_leg_allowed ;;;
  if negb (Nat.eqb (length angles) 6)
  then raise (ValueError "angles must contain 6 items.")
  else for_enumerate joint_angles_body 0%nat angles.

(** ** Vocabulary of the statements about the leg setters *)

(** The robot is neither walking nor tracking. *)
Definition manual_allowed (d : HexapodDevice) : Prop :=
  _moving d = false /\ _ball_active d = false.

Definition precondition_error : exn :=
  RuntimeError "Stop motion and ball tracking before manual leg control.".

Definition index_error : exn := ValueError "leg_index must be in [0, 5]".

(** Each of the six leg setters raises the precondition error on [d] and
    leaves it as it is. *)
Definition setters_refuse (d : HexapodDevice) (i x y z : Z)
    (positions : list (list coordinate)) (batch : list (list Z)) : Prop :=
  set_leg_position i x y z d = (inl precondition_error, d)
  /\ set_leg_positions positions d = (inl precondition_error, d)
  /\ set_leg_servo_angles i x y z d = (inl precondition_error, d)
  /\ set_leg_servo_angles_all batch d = (inl precondition_error, d)
  /\ set_leg_joint_angles i x y z d = (inl precondition_error, d)
  /\ set_leg_joint_angles_all batch d = (inl precondition_error, d).


(** The exception of the first item of an entry that [int()] refuses. *)
Fixpoint first_refusal (position : list coordinate) : option exn :=
  match position with
  | [] => None
  | Int _ :: rest => first_refusal rest
  | NotInt e :: _ => Some e
  end.

(** The device with another leg table. *)
Definition with_table (t : list (list Z)) (d : HexapodDevice) : HexapodDevice :=
  upd_control (set_leg_positions_table t) d.

(** The table after the loop of [set_leg_positions] wrote [ps] from row [i]. *)
Fixpoint overwrite (i : nat) (ps : list (list Z)) (t : list (list Z))
  : list (list Z) :=
  match ps with
  | [] => t
  | p :: ps' => overwrite (S i) ps' (<[i:=p]> t)
  end.

(** An entry of a batch has the shape [[x, y, z]]. *)
Definition triple (p : list Z) : Prop := length p = 3%nat.

(** The calibration table has its six rows of three offsets. *)
Definition calibrated (d : HexapodDevice) : Prop :=
  length (calibration_angles (control d)) = 6%nat
  /\ Forall triple (calibration_angles (control d)).

(** The device with [events] more in the log of hardware calls. *)
Definition with_events (events : list hw_event) (d : HexapodDevice) : HexapodDevice :=
  upd_control
    (fun c => mkControl (command_queue c) (timeout c) (leg_positions c)
                (calibration_angles c) (servo_power_disable c)
                (condition_thread_alive c) (hw_log c ++ events)%list)
    d.


(** The three servo writes of one leg. *)
Definition leg_writes (channels : list Z) (a b c : Z) : list hw_event :=
  match channels with
  | [ca; cb; cc] => [ServoAngle ca a; ServoAngle cb b; ServoAngle cc c]
  | _ => []
  end.

End Legs.

(** ** The RPC bridge *)

(** A decoded JSON value; an object keeps its members in order. *)
Inductive json : Type :=
| JNull
| JBool (b : bool)
| JInt (n : Z)
| JFloat (x : float)
| JStr (s : string)
| JList (items : list json)
| JDict (members : list (string * json)).

(** [d.get(key, default)] on a decoded object. *)
Fixpoint dict_get (members : list (string * json)) (key : string) (default : json)
  : json :=
  match members with
  | [] => default
  | (k, v) :: rest => if String.eqb k key then v else dict_get rest key default
  end.

(** What [json.loads] does with a line: a value, [json.JSONDecodeError] with
    its text, or another exception (bytes that are not UTF-8). *)
Inductive parsed : Type :=
| Decoded (message : json)
| JSONDecodeError (text : string)
| DecodeRaised (e : exn).

(** What [getattr(self.device, name, None)] finds: nothing or [None], a value
    that is not callable, or a bound method. *)
Inductive attribute (D R : Type) : Type :=
| Absent
| Data
| Method (f : list json -> list (string * json) -> M D R).
Arguments Absent {D R}.
Arguments Data {D R}.
Arguments Method {D R} f.

(** [bytes.strip()]: ASCII white space off both ends. *)
Definition is_space (c : ascii) : bool :=
  let n := nat_of_ascii c in
  (Nat.eqb n 32) || ((Nat.leb 9 n) && (Nat.leb n 13)).

Fixpoint lstrip (cs : list ascii) : list ascii :=
  match cs with
  | c :: rest => if is_space c then lstrip rest else cs
  | [] => []
  end.

Definition strip (raw : string) : string :=
  string_of_list_ascii
    (rev (lstrip (rev (lstrip (list_ascii_of_string raw))))).

Section Bridge.
(** The device behind the bridge, what its methods return, and the
    collaborators of [rpc_server.py]: attribute lookup on the device,
    [json.loads], [_serialize] on a method's result, the device's
    [connected] attribute as [status] reads it. *)
Context {D R : Type}.
Variable device_getattr : D -> string -> attribute D R.
Variable json_loads : string -> parsed.
Variable _serialize : R -> json.
Variable device_connected : D -> bool.

(** [HexapodRPCServer]: the device, the socket path, and whether [shutdown]
    has started the thread that stops the server. *)
Record HexapodRPCServer : Type := mkServer {
  device : D;
  socket_path : string;
  shutdown_scheduled : bool
}.

Definition set_device (d : D) (srv : HexapodRPCServer) : HexapodRPCServer :=
  mkServer d (socket_path srv) (shutdown_scheduled srv).
Definition set_shutdown_scheduled (b : bool) (srv : HexapodRPCServer)
  : HexapodRPCServer :=
  mkServer (device srv) (socket_path srv) b.

(** [HexapodRPCServer.ok_response] and [HexapodRPCServer.error_response] *)
Definition ok_response (req_id result : json) : json :=
  JDict [("id", req_id); ("ok", JBool true); ("result", result)].
Definition error_response (req_id : json) (message : string) : json :=
  JDict [("id", req_id); ("ok", JBool false); ("error", JStr message)].

(** Running a device method from the server, under [self.lock]. *)
Definition call_device {A} (m : M D A) : M HexapodRPCServer A :=
  fun srv =>
    match m (device srv) with
    | (r, d') => (r, set_device d' srv)
    end.

(** [HexapodRPCServer.dispatch].  A raised result is an exception that leaves
    [dispatch]; [now] is the reading of [time.time()]. *)
Definition dispatch (now : float) (message : json) : M HexapodRPCServer json :=
  match message with
  | JDict members =>
      let req_id := dict_get members "id" JNull in
      let method := dict_get members "method" JNull in
      let args := dict_get members "args" (JList []) in
      let kwargs := dict_get members "kwargs" (JDict []) in
      match method with
      | JNull => ret (error_response req_id "Missing 'method'")
      | _ =>
        match args with
        | JList args =>
          match kwargs with
          | JDict kwargs =>
            match method with
            | JStr name =>
                if String.eqb name "ping"
                then ret (ok_response req_id (JDict [("pong", JFloat now)]))
                else if String.eqb name "status"
                then (fun srv =>
                        (inr (ok_response req_id
                                (JDict [("connected", JBool (device_connected (device srv)));
                                        ("socket", JStr (socket_path srv))])),
                         srv))
                else if String.eqb name "shutdown"
                then bind (modify (set_shutdown_scheduled true))
                          (fun _ => ret (ok_response req_id (JStr "shutting down")))
                else
                  (fun srv =>
                     match device_getattr (device srv) name with
                     | Method func =>
                         match call_device (func args kwargs) srv with
                         | (inl exc, srv') =>
                             (inr (error_response req_id
                                     (exn_name exc ++ ": " ++ exn_msg exc)), srv')
                         | (inr result, srv') =>
                             (inr (ok_response req_id (_serialize result)), srv')
                         end
                     | Absent | Data =>
                         (inr (error_response req_id ("Unknown method: " ++ name)), srv)
                     end)
            | _ => raise (TypeError "attribute name must be string")
            end
          | _ => ret (error_response req_id "'kwargs' must be a dict")
          end
        | _ => ret (error_response req_id "'args' must be a list")
        end
      end
  | _ => raise (AttributeError "object has no attribute 'get'")
  end.

(** [HexapodRPCRequestHandler.handle] over the lines [readline] returns, each
    with the clock's reading when it is dispatched: the payloads given to
    [_send], in order.  An empty line is the end of the stream; an exception
    that leaves [dispatch] or [json.loads] ends the handler, after the replies
    already sent. *)
Fixpoint handle (lines : list (float * string)) (srv : HexapodRPCServer)
  : list json * option exn * HexapodRPCServer :=
  match lines with
  | [] => ([], None, srv)
  | (now, raw) :: rest =>
      if String.eqb raw "" then ([], None, srv)
      else
        let raw := strip raw in
        if String.eqb raw "" then handle rest srv
        else
          match json_loads raw with
          | JSONDecodeError text =>
              let '(sent, err, srv') := handle rest srv in
              (error_response JNull ("Invalid JSON: " ++ text) :: sent, err, srv')
          | DecodeRaised e => ([], Some e, srv)
          | Decoded message =>
              match dispatch now message srv with
              | (inr response, srv') =>
                  let '(sent, err, srv'') := handle rest srv' in
                  (response :: sent, err, srv'')
              | (inl e, srv') => ([], Some e, srv')
              end
          end
  end.

End Bridge.
Arguments HexapodRPCServer D : clear implicits.

(** The request names the method [name] as a string, and its [args] and
    [kwargs], given or defaulted, are a list and an object. *)
Definition calls (members : list (string * json)) (name : string)
    (args : list json) (kwargs : list (string * json)) : Prop :=
  dict_get members "method" JNull = JStr name
  /\ dict_get members "args" (JList []) = JList args
  /\ dict_get members "kwargs" (JDict []) = JDict kwargs.

(** The three names the bridge answers itself. *)
Definition intercepted (name : string) : Prop :=
  name = "ping" \/ name = "status" \/ name = "shutdown".

(** ** Vocabulary of the statements about servo writes *)




(** A servo write with an angle of [0, 180]. *)
Definition servo_in_range (e : hw_event) : Prop :=
  match e with
  | ServoAngle _ angle => 0 <= angle <= 180
  | LegAngles _ => False
  end.

(** ** The tracking loop around a tick *)

Section Loop.
Context {ext : Collaborators}.

(** What one turn of the loop gets from [_read_frame] and the vision steps:
    no frame, or a frame with the measurements of its largest contour when
    it has one. *)
Inductive observation : Type :=
| NoFrame
| Seen (found : option contour).

(** The body of the [while] in [_ball_tracking_loop]: [_read_frame] starts
    the camera stream when it is off; without a frame the turn only sleeps. *)
Definition iteration (now : float) (obs : observation) : M HexapodDevice unit :=
  (modify (fun d => if negb (camera_streaming d)
                    then set_camera_streaming true d else d) ;;;
   match obs with
   | NoFrame => ret tt
   | Seen found =>
       located <- lift (locate found) ;;
       tick now (fst located) (snd located)
   end)%method.

(** One turn of the thread that runs [_ball_tracking_loop]: with the stop
    event set the [while] ends and the thread returns; an exception that
    leaves the body ends the thread as well. *)
Definition loop_turn (now : float) (obs : observation) (d : HexapodDevice)
  : HexapodDevice :=
  if is_alive (_ball_thread d) then
    if _ball_stop d then set__ball_thread (Some Exited) d
    else
      match iteration now obs d with
      | (inr _, d') => d'
      | (inl _, d') => set__ball_thread (Some Exited) d'
      end
  else d.

(** [HexapodRPCServer.server_close] on the device: [ball_stop], then
    [disconnect], each with its own clock reading and join outcome. *)
Definition server_close (now now' : float) (exits exits' : bool)
    (srv : HexapodRPCServer HexapodDevice) : HexapodRPCServer HexapodDevice :=
  set_device (disconnect now' exits' (ball_stop now exits (device srv))) srv.

End Loop.

(** ** The result normaliser of the bridge *)

Module Serialize.

(** A Python value as [_serialize] tells them apart.  A [bytes] object is
    carried with its text (decoded as UTF-8, errors replaced), a mapping
    with its items in order, each key as its [str(k)], and any other object
    with the outcome of its [tolist()], when it has that method, and its
    [repr]. *)
Inductive pyval : Type :=
| PNone
| PBool (b : bool)
| PInt (n : Z)
| PFloat (x : float)
| PStr (s : string)
| PBytes (text : string)
| PMapping (items : list (string * pyval))
| PSequence (items : list pyval)
| PObject (tolist : option (exn + pyval)) (repr : string).

(** [d[key] = v] on the items of a dict: an existing key keeps its place. *)
Fixpoint dict_set (items : list (string * pyval)) (key : string) (v : pyval)
  : list (string * pyval) :=
  match items with
  | [] => [(key, v)]
  | (k, w) :: rest =>
      if String.eqb k key then (k, v) :: rest else (k, w) :: dict_set rest key v
  end.

(** [_serialize] *)
Fixpoint _serialize (value : pyval) : pyval :=
  match value with
  | PNone | PBool _ | PInt _ | PFloat _ | PStr _ => value
  | PBytes text => PStr text
  | PMapping items =>
      PMapping
        ((fix comprehension (items acc : list (string * pyval)) :=
            match items with
            | [] => acc
            | (k, v) :: rest => comprehension rest (dict_set acc k (_serialize v))
            end) items [])
  | PSequence items => PSequence (map _serialize items)
  | PObject (Some (inr listed)) _ => listed
  | PObject _ repr => PStr repr
  end.

(** The dict comprehension of [_serialize], on its own. *)
Fixpoint comprehension (items acc : list (string * pyval)) : list (string * pyval) :=
  match items with
  | [] => acc
  | (k, v) :: rest => comprehension rest (dict_set acc k (_serialize v))
  end.

(** What [json.dumps] takes without a custom encoder: [None], booleans,
    numbers, strings, and lists and string-keyed dicts of such values. *)
Fixpoint json_safe (value : pyval) : bool :=
  match value with
  | PNone | PBool _ | PInt _ | PFloat _ | PStr _ => true
  | PMapping items =>
      (fix all (items : list (string * pyval)) :=
         match items with
         | [] => true
         | (_, v) :: rest => json_safe v && all rest
         end) items
  | PSequence items =>
      (fix all (items : list pyval) :=
         match items with
         | [] => true
         | v :: rest => json_safe v && all rest
         end) items
  | PBytes _ | PObject _ _ => false
  end.

(** No object inside [value] answers [tolist()] with a value. *)
Fixpoint array_free (value : pyval) : bool :=
  match value with
  | PMapping items =>
      (fix all (items : list (string * pyval)) :=
         match items with
         | [] => true
         | (_, v) :: rest => array_free v && all rest
         end) items
  | PSequence items =>
      (fix all (items : list pyval) :=
         match items with
         | [] => true
         | v :: rest => array_free v && all rest
         end) items
  | PObject (Some (inr _)) _ => false
  | _ => true
  end.

(** The keys of every dict inside [value] are pairwise different. *)
Fixpoint distinct_keys (value : pyval) : Prop :=
  match value with
  | PMapping items =>
      NoDup (map fst items)
      /\ (fix all (items : list (string * pyval)) :=
            match items with
            | [] => True
            | (_, v) :: rest => distinct_keys v /\ all rest
            end) items
  | PSequence items =>
      (fix all (items : list pyval) :=
         match items with
         | [] => True
         | v :: rest => distinct_keys v /\ all rest
         end) items
  | _ => True
  end.

End Serialize.

(** ** The RPC client *)

Module Client.

(** [chunk] holds the byte of a line feed. *)
Fixpoint has_newline (chunk : string) : bool :=
  match chunk with
  | EmptyString => false
  | String c rest => if Ascii.eqb c "010"%char then true else has_newline rest
  end.

(** [data.split(b"\n", 1)[0]]: the bytes before the first line feed. *)
Fixpoint before_newline (data : string) : string :=
  match data with
  | EmptyString => EmptyString
  | String c rest =>
      if Ascii.eqb c "010"%char then EmptyString else String c (before_newline rest)
  end.

(** The loop of [_readline] over what the successive [recv] calls return
    (an exhausted stream returns no bytes, as a closed peer does): the
    chunks appended. *)
Fixpoint received (stream : list string) : list string :=
  match stream with
  | [] => []
  | chunk :: rest =>
      if String.eqb chunk "" then []
      else if has_newline chunk then [chunk]
      else chunk :: received rest
  end.

Section Readline.
(** [bytes.decode("utf-8", errors="replace")] and [json.loads] *)
Variable decode : string -> string.
Variable json_loads : string -> parsed.

(** [HexapodRPCClient._readline] *)
Definition _readline (stream : list string) : option string :=
  match received stream with
  | [] => None
  | chunks => Some (decode (before_newline (String.concat "" chunks)))
  end.

(** [_RPCResponse]; [error] is a string or [None]. *)
Record _RPCResponse : Type := mkResponse {
  ok : bool;
  result : json;
  error : json
}.

(** [bool(x)] on a decoded JSON value. *)
Definition truthy (x : json) : bool :=
  match x with
  | JNull => false
  | JBool b => b
  | JInt n => negb (n =? 0)
  | JFloat f => negb (f =? 0)%float
  | JStr s => negb (String.eqb s "")
  | JList items => match items with [] => false | _ => true end
  | JDict members => match members with [] => false | _ => true end
  end.

(** The end of [HexapodRPCClient._request], from the line read. *)
Definition response_of (raw : option string) : exn + _RPCResponse :=
  match raw with
  | None => inr (mkResponse false JNull (JStr "No response from RPC server"))
  | Some raw =>
      match json_loads raw with
      | JSONDecodeError text =>
          inr (mkResponse false JNull (JStr ("Invalid JSON response: " ++ text)))
      | DecodeRaised e => inl e
      | Decoded (JDict members) =>
          inr (mkResponse (truthy (dict_get members "ok" JNull))
                 (dict_get members "result" JNull)
                 (dict_get members "error" JNull))
      | Decoded _ => inl (AttributeError "object has no attribute 'get'")
      end
  end.

(** How [HexapodRPCClient.call] ends: it returns the result, raises
    [HexapodRPCError] with an argument, or lets another exception through. *)
Inductive outcome : Type :=
| Returned (value : json)
| HexapodRPCError (argument : json)
| Raised (e : exn).

(** [HexapodRPCClient.call], from the line [_request] read. *)
Definition call (raw : option string) : outcome :=
  match response_of raw with
  | inl e => Raised e
  | inr response =>
      if negb (ok response)
      then HexapodRPCError
             (if truthy (error response) then error response
              else JStr "RPC call failed")
      else Returned (result response)
  end.

End Readline.

End Client.

(** ** A concrete robot to run the definitions on *)

Module Sample.

(** A reachability test in the manner of the executor's: every leg tip
    between 90 and 248 mm from its hip. *)
Definition validity (legs : list (list Z)) : bool :=
  forallb
    (fun p =>
       match p with
       | [x; y; z] =>
           let n := x * x + y * y + z * z in
           (90 * 90 <=? n) && (n <=? 248 * 248)
       | _ => false
       end)
    legs.

Definition ext : Collaborators :=
  {| CMD_MOVE := "CMD_MOVE";
     CMD_BALANCE := "CMD_BALANCE";
     CMD_POSITION := "CMD_POSITION";
     CMD_ATTITUDE := "CMD_ATTITUDE";
     check_point_validity := validity |}.

Definition control0 : Control :=
  {| command_queue := [];
     timeout := 0;
     leg_positions := repeat [140; 0; 0] 6;
     calibration_angles := repeat [0; 0; 0] 6;
     servo_power_disable := false;
     condition_thread_alive := false;
     hw_log := [] |}.

(** The device as constructed. *)
Definition device0 : HexapodDevice := new_device control0 false.


(** A batch whose second entry starts with an item [int()] refuses. *)
Definition not_a_number : list (list coordinate) :=
  ints [[150; 0; 0]]
  ++ [NotInt (ValueError "invalid literal for int() with base 10: 'x'"); Int 0; Int 0]
  :: ints (repeat [140; 0; 0] 4).


(** What the sample methods return, and [_serialize] on it. *)
Inductive value : Type :=
| VNone
| VStr (s : string).

Definition serialize (v : value) : json :=
  match v with
  | VNone => JNull
  | VStr s => JStr s
  end.

(** A few of the device's attributes, enough to run requests: two methods,
    the [connected] flag, and nothing else. *)
Definition getattr (d : HexapodDevice) (name : string)
  : attribute HexapodDevice value :=
  if String.eqb name "ball_state" then
    Method (fun args kwargs =>
              match args, kwargs with
              | [], [] => fun d => (inr (VStr (ball_state d)), d)
              | _, _ => raise (TypeError "ball_state() takes 1 positional argument")
              end)
  else if String.eqb name "set_leg_position" then
    Method (fun args kwargs =>
              match args, kwargs with
              | [JInt i; JInt x; JInt y; JInt z], [] =>
                  bind (set_leg_position (ext := ext) i x y z) (fun _ => ret VNone)
              | _, _ =>
                  raise (TypeError "set_leg_position() takes 5 positional arguments")
              end)
  else if String.eqb name "connected" then Data
  else Absent.

(** A decoder that knows one text. *)
Definition loads (raw : string) : parsed :=
  if String.eqb raw "null" then Decoded JNull
  else JSONDecodeError "Expecting value: line 1 column 1 (char 0)".

Definition server0 : HexapodRPCServer HexapodDevice :=
  mkServer device0 "/tmp/hexapod-rpc.sock" false.

(** Three requests: an unknown method; the same with [args] that is not a
    list; a leg write with an index outside the legs. *)
Definition unknown_call : json :=
  JDict [("id", JStr "y"); ("method", JStr "nope")].
Definition unknown_call_bad_args : json :=
  JDict [("id", JStr "y"); ("method", JStr "nope"); ("args", JInt 5)].
Definition leg_call : json :=
  JDict [("id", JInt 7); ("method", JStr "set_leg_position");
         ("args", JList [JInt 9; JInt 140; JInt 0; JInt 0])].

End Sample.

(** * Properties *)

(** ** Binary64 facts used below *)

Section FloatFacts.

Lemma is_nan_spec (x : float) : is_nan x = true <-> Prim2SF x = S754_nan.
Proof.
  unfold is_nan. rewrite FloatAxioms.eqb_spec. unfold SFeqb.
  destruct (Prim2SF x) as [s|s| |s m e]; simpl.
  - split; [discriminate|discriminate].
  - destruct s; simpl; split; discriminate.
  - split; reflexivity.
  - destruct s; rewrite Z.compare_refl, Pos.compare_cont_refl; simpl;
      split; discriminate.
Qed.

Lemma not_nan_spec (x : float) : is_nan x = false <-> Prim2SF x <> S754_nan.
Proof.
  rewrite <- is_nan_spec. destruct (is_nan x); split; congruence.
Qed.

Lemma SFcompare_antisym (x y : spec_float) :
  SFcompare y x = option_map CompOpp (SFcompare x y).
Proof.
  destruct x as [sx|sx| |sx mx ex], y as [sy|sy| |sy my ey]; simpl;
    try reflexivity;
    try (destruct sx; reflexivity);
    try (destruct sy; reflexivity);
    try (destruct sx, sy; reflexivity).
  destruct sx, sy; simpl; try reflexivity;
    rewrite (Z.compare_antisym ex ey);
    destruct (ex ?= ey)%Z; simpl; try reflexivity;
    rewrite (Pos.compare_cont_antisym mx my Eq); simpl;
    try rewrite CompOpp_involutive; reflexivity.
Qed.

Lemma SFcompare_defined (x y : spec_float) :
  x <> S754_nan -> y <> S754_nan -> exists c, SFcompare x y = Some c.
Proof.
  intros Hx Hy.
  destruct x as [sx|sx| |sx mx ex], y as [sy|sy| |sy my ey];
    try congruence; simpl; eauto.
Qed.

(** Where neither [x < y] nor NaN, [y <= x]. *)
Lemma not_ltb_leb (x y : float) :
  is_nan x = false -> is_nan y = false -> (x <? y)%float = false ->
  (y <=? x)%float = true.
Proof.
  rewrite !not_nan_spec, FloatAxioms.ltb_spec, FloatAxioms.leb_spec. unfold SFltb, SFleb.
  intros Hx Hy. rewrite (SFcompare_antisym (Prim2SF x) (Prim2SF y)).
  destruct (SFcompare_defined _ _ Hx Hy) as [c ->].
  destruct c; simpl; congruence.
Qed.

Lemma shr_1_nonneg (mrs : shr_record) : 0 <= shr_m mrs -> 0 <= shr_m (shr_1 mrs).
Proof.
  destruct mrs as [m r s]. simpl.
  destruct m as [|p|p]; [| destruct p | intros H; lia]; simpl; lia.
Qed.

Lemma iter_shr_1_nonneg (n : positive) (mrs : shr_record) :
  0 <= shr_m mrs -> 0 <= shr_m (SpecFloat.iter_pos shr_1 n mrs).
Proof.
  revert mrs. induction n as [n IH|n IH|]; intros mrs H; simpl.
  - apply IH, IH, shr_1_nonneg, H.
  - apply IH, IH, H.
  - apply shr_1_nonneg, H.
Qed.

Lemma shr_fexp_nonneg (m e : Z) (l : location) :
  0 <= m -> 0 <= shr_m (fst (shr_fexp prec emax m e l)).
Proof.
  intros H. unfold shr_fexp, shr.
  assert (H0 : 0 <= shr_m (shr_record_of_loc m l)).
  { destruct l as [|[]]; simpl; exact H. }
  destruct (fexp prec emax (Zdigits2 m + e) - e) as [|p|p]; simpl;
    [exact H0 | apply iter_shr_1_nonneg, H0 | exact H0].
Qed.

Lemma round_nearest_even_nonneg (m : Z) (l : location) :
  0 <= m -> 0 <= round_nearest_even m l.
Proof.
  intros H. destruct l as [|[]]; simpl; try lia.
  destruct (Z.even m); lia.
Qed.

(** Rounding a non-negative mantissa never yields NaN. *)
Lemma binary_round_aux_not_nan (sx : bool) (mx ex : Z) (lx : location) :
  0 <= mx -> binary_round_aux prec emax sx mx ex lx <> S754_nan.
Proof.
  intros H. unfold binary_round_aux.
  pose proof (shr_fexp_nonneg mx ex lx H) as H1.
  destruct (shr_fexp prec emax mx ex lx) as [mrs' e']. simpl in H1.
  pose proof (shr_fexp_nonneg _ e' loc_Exact
                (round_nearest_even_nonneg _ (loc_of_shr_record mrs') H1)) as H2.
  destruct (shr_fexp prec emax (round_nearest_even (shr_m mrs') (loc_of_shr_record mrs'))
              e' loc_Exact) as [mrs'' e'']. simpl in H2.
  destruct (shr_m mrs'') as [|p|p]; [discriminate| |lia].
  destruct (e'' <=? emax - prec); discriminate.
Qed.

Lemma binary_normalize_not_nan (m e : Z) (sz : bool) :
  binary_normalize prec emax m e sz <> S754_nan.
Proof.
  unfold binary_normalize, binary_round.
  destruct m as [|p|p]; [discriminate| |];
    destruct (shl_align _ _ _) as [mz ez];
    apply binary_round_aux_not_nan; lia.
Qed.

Lemma sub_not_nan (a b : float) :
  PyFloat.finite a = true -> is_nan b = false -> is_nan (a - b)%float = false.
Proof.
  unfold PyFloat.finite. rewrite !not_nan_spec, sub_spec. unfold SF64sub, SFsub.
  destruct (Prim2SF a) as [sa|sa| |sa ma ea]; try discriminate;
    destruct (Prim2SF b) as [sb|sb| |sb mb eb]; intros _ Hb;
    try congruence; try discriminate.
  - destruct sa, sb; discriminate.
  - apply binary_normalize_not_nan.
Qed.

Lemma add_not_nan (a b : float) :
  PyFloat.finite a = true -> is_nan b = false -> is_nan (a + b)%float = false.
Proof.
  unfold PyFloat.finite. rewrite !not_nan_spec, add_spec. unfold SF64add, SFadd.
  destruct (Prim2SF a) as [sa|sa| |sa ma ea]; try discriminate;
    destruct (Prim2SF b) as [sb|sb| |sb mb eb]; intros _ Hb;
    try congruence; try discriminate.
  - destruct sa, sb; discriminate.
  - apply binary_normalize_not_nan.
Qed.

End FloatFacts.

(** ** The PID controller *)

Module PIDFacts.
Import PID.
Local Open Scope float_scope.

(** The clamp of [compute] on its own: the accumulator it leaves. *)
Lemma compute_i_error (s : _TrackingPID) (v : float) :
  i_error (snd (compute s v)) =
  clamp (i_error s + (set_point s - v)) (- i_saturation s) (i_saturation s).
Proof.
  unfold compute, clamp. cbn [set_i_error i_error i_saturation].
  destruct (i_error s + (set_point s - v) <? - i_saturation s); [reflexivity|].
  destruct (i_saturation s <? i_error s + (set_point s - v)); reflexivity.
Qed.

Lemma compute_keeps (s : _TrackingPID) (v : float) :
  set_point (snd (compute s v)) = set_point s
  /\ kp (snd (compute s v)) = kp s
  /\ ki (snd (compute s v)) = ki s
  /\ kd (snd (compute s v)) = kd s
  /\ i_saturation (snd (compute s v)) = i_saturation s.
Proof.
  unfold compute. cbn [set_i_error i_error i_saturation].
  destruct (i_error s + (set_point s - v) <? - i_saturation s);
    [repeat split|].
  destruct (i_saturation s <? i_error s + (set_point s - v)); repeat split.
Qed.

(** C4.  For every controller whose saturation is the 10.0 of the constructor
    and every feedback value [v], [compute] returns
    -(kp*e + ki*I' + kd*(e - last_error)) with e = set_point - v and I' the
    sum i_error + e clamped to [-10.0, 10.0]; it stores I' as the
    accumulator and e as the last error, and leaves the set-point and the
    gains as they were. *)
Theorem compute_spec (s : _TrackingPID) (v : float) :
  i_saturation s = 10 ->
  let e := set_point s - v in
  let I' := clamp (i_error s + e) (-10) 10 in
  compute s v =
  (- (kp s * e + ki s * I' + kd s * (e - last_error s)),
   mk (set_point s) (kp s) (ki s) (kd s) e I' (i_saturation s)).
Proof.
  destruct s as [sp p i d le ie sat]. cbn [i_saturation]. intros ->.
  cbv zeta. unfold compute, clamp, set_last_error, set_i_error.
  cbn [set_point kp ki kd last_error i_error i_saturation].
  change (- (10))%float with (-10)%float.
  destruct (ie + (sp - v) <? -10); [reflexivity|].
  destruct (10 <? ie + (sp - v)); reflexivity.
Qed.

(** The x-axis controller of a new device, fed the column 170. *)
Lemma compute_spec_witness :
  let s := set_set_point 180 (init 0.05 0.005 0.02) in
  let e := set_point s - 170 in
  let I' := clamp (i_error s + e) (-10) 10 in
  compute s 170 =
  (- (kp s * e + ki s * I' + kd s * (e - last_error s)),
   mk (set_point s) (kp s) (ki s) (kd s) e I' (i_saturation s)).
Proof.
  exact (compute_spec (set_set_point 180 (init 0.05 0.005 0.02)) 170 eq_refl).
Defined.

(** The clamp never leaves a value below -10.0 or above 10.0. *)
Lemma clamp_never_exceeds (x : float) : never_exceeds (clamp x (-10) 10).
Proof.
  unfold never_exceeds, clamp.
  destruct (x <? -10) eqn:Hlo; [split; reflexivity|].
  destruct (10 <? x) eqn:Hhi; [split; reflexivity|].
  split; assumption.
Qed.

(** On a number, the clamp lands in the interval. *)
Lemma clamp_in_band (x : float) : is_nan x = false -> in_band (clamp x (-10) 10).
Proof.
  intros Hx. unfold in_band, clamp.
  destruct (x <? -10) eqn:Hlo; [split; reflexivity|].
  destruct (10 <? x) eqn:Hhi; [split; reflexivity|].
  split.
  - apply not_ltb_leb; [exact Hx|reflexivity|exact Hlo].
  - apply not_ltb_leb; [reflexivity|exact Hx|exact Hhi].
Qed.

(** A value of the interval is a finite number. *)
Lemma in_band_finite (x : float) : in_band x -> PyFloat.finite x = true.
Proof.
  unfold in_band, PyFloat.finite. rewrite !FloatAxioms.leb_spec. unfold SFleb.
  change (Prim2SF (-10)) with (S754_finite true 5629499534213120 (-49)).
  change (Prim2SF 10) with (S754_finite false 5629499534213120 (-49)).
  destruct (Prim2SF x) as [sx|sx| |sx mx ex]; try reflexivity.
  - destruct sx; simpl; intros [H1 H2]; discriminate.
  - simpl. intros [H1 H2]; discriminate.
Qed.

Lemma trace_never_exceeds (vs : list float) (s : _TrackingPID) :
  i_saturation s = 10 ->
  Forall (fun s' => never_exceeds (i_error s')) (trace s vs).
Proof.
  revert s. induction vs as [|v vs IH]; intros s Hsat; cbn [trace].
  - constructor.
  - destruct (compute_keeps s v) as (_ & _ & _ & _ & Hsat').
    constructor.
    + rewrite compute_i_error, Hsat. apply clamp_never_exceeds.
    + apply IH. congruence.
Qed.

Lemma trace_in_band (vs : list float) (s : _TrackingPID) :
  i_saturation s = 10 ->
  PyFloat.finite (set_point s) = true ->
  in_band (i_error s) ->
  Forall (fun v => is_nan v = false) vs ->
  Forall (fun s' => in_band (i_error s')) (trace s vs).
Proof.
  revert s. induction vs as [|v vs IH]; intros s Hsat Hsp Hband Hvs; cbn [trace].
  - constructor.
  - inversion Hvs as [|v' vs' Hv Hrest]; subst.
    destruct (compute_keeps s v) as (Hsp' & _ & _ & _ & Hsat').
    assert (Hnext : in_band (i_error (snd (compute s v)))).
    { rewrite compute_i_error, Hsat. apply clamp_in_band.
      apply add_not_nan; [apply in_band_finite, Hband|].
      apply sub_not_nan; assumption. }
    constructor; [exact Hnext|].
    apply IH; [congruence|congruence|exact Hnext|exact Hrest].
Qed.

(** C5.  From a freshly constructed controller, after every call of a
    sequence of [compute] calls the accumulator is neither below -10.0 nor
    above 10.0, whatever the feedback; and when the feedback values are
    numbers (none is NaN; the infinities are allowed) the accumulator is a
    number of the interval [-10.0, 10.0]. *)
Theorem integral_band (p i d : float) (feedback : list float) :
  Forall (fun s => never_exceeds (i_error s)) (trace (init p i d) feedback)
  /\ (Forall (fun v => is_nan v = false) feedback ->
      Forall (fun s => in_band (i_error s)) (trace (init p i d) feedback)).
Proof.
  split.
  - apply trace_never_exceeds. reflexivity.
  - intros Hvs. apply trace_in_band; [reflexivity|reflexivity| |exact Hvs].
    split; reflexivity.
Qed.

(** The error stays at +180 for four calls: the accumulator sits at 10.0. *)
Lemma integral_band_witness :
  map i_error (trace (init 0.05 0.005 0.02) [-180; -180; -180; -180])
  = [10; 10; 10; 10]
  /\ Forall (fun s => in_band (i_error s))
       (trace (init 0.05 0.005 0.02) [-180; -180; -180; -180]).
Proof.
  split; [reflexivity|].
  apply (integral_band 0.05 0.005 0.02 [-180; -180; -180; -180]).
  repeat constructor.
Defined.

(** The same for a controller whose set-point was then assigned a finite
    value, as the device does with 180 and 60. *)
Lemma integral_band_set_point (p i d sp : float) (feedback : list float) :
  PyFloat.finite sp = true ->
  Forall (fun v => is_nan v = false) feedback ->
  Forall (fun s => in_band (i_error s))
    (trace (set_set_point sp (init p i d)) feedback).
Proof.
  intros Hsp Hvs. apply trace_in_band; [reflexivity|exact Hsp| |exact Hvs].
  split; reflexivity.
Qed.

(** A NaN fed to [compute] stays in the accumulator: no comparison of the
    clamp holds of it. *)
Lemma nan_feedback_sticks :
  i_error (snd (compute (init 0.05 0.005 0.02) nan)) = nan.
Proof. reflexivity. Qed.

End PIDFacts.

(** ** Running methods *)

Lemma bind_inl {S A B} (m : M S A) (k : A -> M S B) (s s' : S) (e : exn) :
  m s = (inl e, s') -> bind m k s = (inl e, s').
Proof. intros H. unfold bind. rewrite H. reflexivity. Qed.

Lemma bind_inr {S A B} (m : M S A) (k : A -> M S B) (s s' : S) (a : A) :
  m s = (inr a, s') -> bind m k s = k a s'.
Proof. intros H. unfold bind. rewrite H. reflexivity. Qed.

Lemma preserves_ret {S A X} (f : S -> X) (a : A) : preserves f (ret a).
Proof. intros s. reflexivity. Qed.

Lemma preserves_raise {S A X} (f : S -> X) (e : exn) :
  preserves f (raise (A := A) e).
Proof. intros s. reflexivity. Qed.

Lemma preserves_lift {S A X} (f : S -> X) (r : exn + A) : preserves f (lift r).
Proof. intros s. reflexivity. Qed.

Lemma preserves_get {S X} (f : S -> X) : preserves f get.
Proof. intros s. reflexivity. Qed.

Lemma preserves_modify {S X} (f : S -> X) (g : S -> S) :
  (forall s, f (g s) = f s) -> preserves f (modify g).
Proof. intros H s. apply H. Qed.

Lemma preserves_bind {S A B X} (f : S -> X) (m : M S A) (k : A -> M S B) :
  preserves f m -> (forall a, preserves f (k a)) -> preserves f (bind m k).
Proof.
  intros Hm Hk s. unfold bind.
  specialize (Hm s). destruct (m s) as [[e|a] s']; cbn in *.
  - exact Hm.
  - rewrite Hk. exact Hm.
Qed.


Ltac preserve :=
  repeat first
    [ apply preserves_ret | apply preserves_raise | apply preserves_lift
    | apply preserves_get
    | apply preserves_modify; intros ?; reflexivity
    | apply preserves_bind; [|intros ?]
    | match goal with
      | |- preserves _ (let '(_, _) := ?p in _) => destruct p
      | |- preserves _ (if ?b then _ else _) => destruct b
      | |- preserves _ (match ?x with _ => _ end) => destruct x
      end ].

Section MethodFacts.
Context {ext : Collaborators}.

Lemma position_in_range {A} (xs : list A) (i : Z) :
  0 <= i < Z.of_nat (length xs) -> PySeq.position xs i = Some (Z.to_nat i).
Proof.
  intros H. unfold PySeq.position.
  destruct (Z.leb_spec 0 i); [|lia].
  destruct (Z.ltb_spec i (Z.of_nat (length xs))); [reflexivity|lia].
Qed.

Lemma getitem_lookup {A} (xs : list A) (i : Z) (x : A) :
  0 <= i -> xs !! Z.to_nat i = Some x -> PySeq.getitem xs i = inr x.
Proof.
  intros Hi Hx. unfold PySeq.getitem.
  rewrite position_in_range, Hx; [reflexivity|].
  apply lookup_lt_Some in Hx. lia.
Qed.



(** Record eta for the two state records. *)
Lemma control_eta (c : Control) :
  mkControl (command_queue c) (timeout c) (leg_positions c) (calibration_angles c)
    (servo_power_disable c) (condition_thread_alive c) (hw_log c) = c.
Proof. destruct c; reflexivity. Qed.

Lemma restore_table (d : HexapodDevice) (t : list (list Z)) :
  upd_control (set_leg_positions_table (leg_positions (control d)))
    (upd_control (set_leg_positions_table t) d) = d.
Proof. destruct d as [c ? ? ? ? ? ? ? ? ? ?]; destruct c; reflexivity. Qed.

Lemma restrict_value_clamp (v lo hi : Z) :
  lo <= hi -> restrict_value v lo hi = Z.max lo (Z.min hi v).
Proof.
  intros H. unfold restrict_value.
  destruct (Z.ltb_spec v lo); [lia|].
  destruct (Z.ltb_spec hi v); lia.
Qed.

End MethodFacts.

(** ** The calibration transform *)

Section Calibration.
Context {ext : Collaborators}.

Lemma apply_calibration_run (d : HexapodDevice) (i a b c ca cb cc : Z) :
  0 <= i <= 5 ->
  calibration_angles (control d) !! Z.to_nat i = Some [ca; cb; cc] ->
  _apply_calibration i a b c d =
  (inr (if i <? 3
        then [clamp (a + ca) 0 180; clamp (90 - (b + cb)) 0 180; clamp (c + cc) 0 180]
        else [clamp (a + ca) 0 180; clamp (90 + b + cb) 0 180;
              clamp (180 - (c + cc)) 0 180]),
   d).
Proof.
  intros Hi Hrow.
  unfold _apply_calibration, bind, get, lift, ret, clamp.
  rewrite (getitem_lookup _ _ _ (proj1 Hi) Hrow).
  rewrite <- !restrict_value_clamp by lia.
  destruct (i <? 3); reflexivity.
Qed.

(** C6.  For a leg index in [0,5], joint angles (a,b,c) and the leg's
    calibration row (ca,cb,cc), [_apply_calibration] returns
    (clamp(a+ca), clamp(90-(b+cb)), clamp(c+cc)) for legs 0 to 2 and
    (clamp(a+ca), clamp(90+b+cb), clamp(180-(c+cc))) for legs 3 to 5, each
    clamp to [0,180], and leaves the device as it was; with b = 20 and a
    zero offset the middle servo angle is 70 for legs 0 to 2 and 110 for
    legs 3 to 5. *)
Theorem apply_calibration_spec (d : HexapodDevice) (i a b c ca cb cc : Z) :
  0 <= i <= 5 ->
  calibration_angles (control d) !! Z.to_nat i = Some [ca; cb; cc] ->
  _apply_calibration i a b c d =
  (inr (if i <? 3
        then [clamp (a + ca) 0 180; clamp (90 - (b + cb)) 0 180; clamp (c + cc) 0 180]
        else [clamp (a + ca) 0 180; clamp (90 + b + cb) 0 180;
              clamp (180 - (c + cc)) 0 180]),
   d)
  /\ (b = 20 -> cb = 0 ->
      exists servo_a servo_c,
        _apply_calibration i a b c d =
        (inr [servo_a; if i <? 3 then 70 else 110; servo_c], d)).
Proof.
  intros Hi Hrow.
  pose proof (apply_calibration_run d i a b c ca cb cc Hi Hrow) as Hrun.
  split; [exact Hrun|].
  intros -> ->. rewrite Hrun.
  destruct (i <? 3); eexists; eexists; reflexivity.
Qed.

End Calibration.

(** Leg 0 and leg 3 with b = 20 and a zero calibration row: the middle servo
    gets 70 on the one side and 110 on the other. *)
Lemma apply_calibration_spec_witness :
  fst (_apply_calibration 0 90 20 90 Sample.device0) = inr [90; 70; 90]
  /\ fst (_apply_calibration 3 90 20 90 Sample.device0) = inr [90; 110; 90].
Proof.
  split.
  - rewrite (proj1 (apply_calibration_spec Sample.device0 0 90 20 90 0 0 0
                      ltac:(lia) eq_refl)).
    reflexivity.
  - rewrite (proj1 (apply_calibration_spec Sample.device0 3 90 20 90 0 0 0
                      ltac:(lia) eq_refl)).
    reflexivity.
Defined.

(** ** Guards of the leg setters *)

Section Guards.
Context {ext : Collaborators}.

Lemma ensure_blocked (d : HexapodDevice) :
  _moving d || _ball_active d = true ->
  _ensure_manual_leg_allowed d = (inl precondition_error, d).
Proof.
  intros H. unfold _ensure_manual_leg_allowed, bind, get. rewrite H. reflexivity.
Qed.

Lemma ensure_allowed (d : HexapodDevice) :
  manual_allowed d -> _ensure_manual_leg_allowed d = (inr tt, d).
Proof.
  intros [Hm Ha]. unfold _ensure_manual_leg_allowed, bind, get.
  rewrite Hm, Ha. reflexivity.
Qed.

Lemma assert_outside (i : Z) (d : HexapodDevice) :
  i < 0 \/ 5 < i -> _assert_leg_index i d = (inl index_error, d).
Proof.
  intros H. unfold _assert_leg_index.
  destruct (Z.ltb_spec i 0); [reflexivity|].
  destruct (Z.ltb_spec 5 i); [reflexivity|lia].
Qed.

Lemma assert_inside (i : Z) (d : HexapodDevice) :
  0 <= i <= 5 -> _assert_leg_index i d = (inr tt, d).
Proof.
  intros H. unfold _assert_leg_index.
  destruct (Z.ltb_spec i 0); [lia|].
  destruct (Z.ltb_spec 5 i); [lia|reflexivity].
Qed.

Lemma index_refused (d : HexapodDevice) (i x y z : Z) :
  manual_allowed d ->
  i < 0 \/ 5 < i ->
  set_leg_position i x y z d = (inl index_error, d)
  /\ set_leg_servo_angles i x y z d = (inl index_error, d)
  /\ set_leg_joint_angles i x y z d = (inl index_error, d).
Proof.
  intros Hok Hi.
  pose proof (ensure_allowed d Hok) as He.
  pose proof (assert_outside i d Hi) as Ha.
  unfold set_leg_position, set_leg_servo_angles, set_leg_joint_angles.
  rewrite !(bind_inr _ _ _ _ _ He).
  rewrite !(bind_inl _ _ _ _ _ Ha).
  repeat split.
Qed.

(** C9.  For every leg index outside [0,5] and a robot that is neither
    moving nor tracking, [set_leg_position], [set_leg_servo_angles] and
    [set_leg_joint_angles] raise the index [ValueError] and leave the device,
    its leg state included, as it was. *)
Theorem leg_index_outside (d : HexapodDevice) (i x y z : Z) :
  manual_allowed d ->
  i < 0 \/ 5 < i ->
  set_leg_position i x y z d = (inl index_error, d)
  /\ set_leg_servo_angles i x y z d = (inl index_error, d)
  /\ set_leg_joint_angles i x y z d = (inl index_error, d).
Proof.
  intros Hok Hi. exact (index_refused d i x y z Hok Hi).
Qed.

(** C2, the first half: with the moving flag or the tracking-active flag
    set, each of the six leg setters raises the precondition error and
    changes nothing. *)
Lemma setters_blocked (d : HexapodDevice) (i x y z : Z)
    (positions : list (list coordinate)) (batch : list (list Z)) :
  _moving d || _ball_active d = true -> setters_refuse d i x y z positions batch.
Proof.
  intros H. pose proof (ensure_blocked d H) as He.
  unfold setters_refuse, set_leg_position, set_leg_positions, set_leg_servo_angles,
    set_leg_servo_angles_all, set_leg_joint_angles, set_leg_joint_angles_all.
  rewrite !(bind_inl _ _ _ _ _ He).
  repeat split.
Qed.

End Guards.

(** On the device as constructed, index 6 and index -1 are refused. *)
Lemma leg_index_outside_witness :
  set_leg_position (ext := Sample.ext) 6 140 0 0 Sample.device0
  = (inl index_error, Sample.device0)
  /\ set_leg_servo_angles (-1) 90 90 90 Sample.device0
     = (inl index_error, Sample.device0).
Proof.
  split.
  - apply (leg_index_outside (ext := Sample.ext) Sample.device0 6 140 0 0);
      [split; reflexivity|lia].
  - apply (leg_index_outside (ext := Sample.ext) Sample.device0 (-1) 90 90 90);
      [split; reflexivity|lia].
Defined.

(** ** The command facade *)

Section FacadeFacts.
Context {ext : Collaborators}.

Lemma tick_preserves_flags (now : float) (center : option (Z * Z)) (radius : float) :
  preserves task_flags (tick now center radius).
Proof.
  unfold tick, compute_x, compute_distance. preserve.
Qed.

(** A tick leaves the tracking-active flag, the thread and the stop event
    alone, whether it ends normally or not. *)
Lemma tick_keeps_flags (now : float) (center : option (Z * Z)) (radius : float)
    (d : HexapodDevice) :
  _ball_active (snd (tick now center radius d)) = _ball_active d
  /\ _ball_thread (snd (tick now center radius d)) = _ball_thread d
  /\ _ball_stop (snd (tick now center radius d)) = _ball_stop d
  /\ _moving (snd (tick now center radius d)) = _moving d.
Proof.
  pose proof (tick_preserves_flags now center radius d) as H.
  unfold task_flags in H. inversion H as [[H1 H2 H3 H4]].
  rewrite H1, H2, H3, H4. repeat split.
Qed.

(** C3.  [stop] is [move(gait=1, x=0, y=0, angle=0)]: it publishes the zero
    move and leaves the moving flag cleared.  It does not cancel the tracking
    task: the loop's thread, its stop event and the centred flag are as
    before, so a running loop keeps running, while [disconnect] leaves the
    stop event set and no thread alive. *)
Theorem stop_is_zero_move (now : float) (exits : bool) (d : HexapodDevice) :
  stop now d = move now 1 0 0 0 d
  /\ _moving (stop now d) = false
  /\ command_queue (control (stop now d))
     = [CMD_MOVE; "1"; "0"; "0"; str (move_speed d); "0"]
  /\ timeout (control (stop now d)) = now
  /\ _ball_thread (stop now d) = _ball_thread d
  /\ _ball_stop (stop now d) = _ball_stop d
  /\ _ball_tracking (stop now d) = _ball_tracking d
  /\ loop_running (stop now d) = loop_running d
  /\ _ball_stop (disconnect now exits d) = true
  /\ is_alive (_ball_thread (disconnect now exits d)) = false
  /\ loop_running (disconnect now exits d) = false.
Proof.
  destruct d as [c cs co ms th st ac tr px pd mv].
  repeat split;
    unfold disconnect, ball_stop, loop_running; cbn;
    destruct th as [[]|], exits, cs; reflexivity.
Qed.

(** C10.  Every [move], the zero move of [stop] and of [ball_stop] included,
    leaves the tracking-active flag false, so [ball_state] then returns
    "not tracking"; the loop's thread and stop event are not touched by
    [move], so a loop that was running still is, and [ball_state] still
    returns "not tracking" after any tick that loop then makes. *)
Theorem move_clears_tracking_flag (now : float) (gait x y angle : Z)
    (exits : bool) (d : HexapodDevice) :
  _ball_active (move now gait x y angle d) = false
  /\ ball_state (move now gait x y angle d) = "not tracking"
  /\ ball_state (stop now d) = "not tracking"
  /\ ball_state (ball_stop now exits d) = "not tracking"
  /\ loop_running (move now gait x y angle d) = loop_running d
  /\ (forall now' center radius,
        ball_state (snd (tick now' center radius (move now gait x y angle d)))
        = "not tracking").
Proof.
  do 3 (split; [reflexivity|]).
  split; [|split; [reflexivity|]].
  - unfold ball_stop. destruct d as [c cs co ms th st ac tr px pd mv]. cbn.
    destruct th as [[]|], exits; reflexivity.
  - intros now' center radius. unfold ball_state.
    destruct (tick_keeps_flags now' center radius (move now gait x y angle d))
      as (-> & _). reflexivity.
Qed.

(** The moving flag after [move] says whether motion was requested. *)
Lemma move_moving (now : float) (gait x y angle : Z) (d : HexapodDevice) :
  _moving (move now gait x y angle d) = true <-> x <> 0 \/ y <> 0 \/ angle <> 0.
Proof.
  cbn. destruct (Z.eqb_spec x 0), (Z.eqb_spec y 0), (Z.eqb_spec angle 0);
    cbn; split; intros H; try discriminate; try reflexivity; try lia; tauto.
Qed.

(** After [stop], manual leg control is allowed. *)
Lemma stop_allows (now : float) (d : HexapodDevice) : manual_allowed (stop now d).
Proof. split; reflexivity. Qed.

End FacadeFacts.

(** ** The position setters *)

Section PositionFacts.
Context {ext : Collaborators}.

Lemma with_table_with_table (t t' : list (list Z)) (d : HexapodDevice) :
  with_table t (with_table t' d) = with_table t d.
Proof. reflexivity. Qed.

Lemma with_table_same (d : HexapodDevice) :
  with_table (leg_positions (control d)) d = d.
Proof. destruct d as [c ? ? ? ? ? ? ? ? ? ?]; destruct c; reflexivity. Qed.

Lemma table_with_table (t : list (list Z)) (d : HexapodDevice) :
  leg_positions (control (with_table t d)) = t.
Proof. reflexivity. Qed.

Lemma assign_leg_run (i : Z) (v : list Z) (d : HexapodDevice) :
  assign_leg i v d =
  match PySeq.position (leg_positions (control d)) i with
  | Some k => (inr tt, with_table (<[k:=v]> (leg_positions (control d))) d)
  | None => (inl (IndexError "list assignment index out of range"), d)
  end.
Proof.
  unfold assign_leg, bind, get, lift, modify, PySeq.setitem.
  destruct (PySeq.position (leg_positions (control d)) i); reflexivity.
Qed.

Lemma triple_inv (p : list Z) : triple p -> exists a b c, p = [a; b; c].
Proof.
  unfold triple. destruct p as [|a [|b [|c [|? ?]]]]; try discriminate.
  intros _. eauto.
Qed.

Lemma not_triple_inv (p : list Z) :
  ~ triple p -> forall a b c, p <> [a; b; c].
Proof. intros H a b c ->. apply H. reflexivity. Qed.

(** On an entry of three integers the body is the assignment of the row. *)
Lemma positions_body_ints (prev : list (list Z)) (i : nat) (a b c : Z)
    (d : HexapodDevice) :
  positions_body prev i [Int a; Int b; Int c] d = assign_leg (Z.of_nat i) [a; b; c] d.
Proof. reflexivity. Qed.

(** On an entry that has not three items the body restores the snapshot and
    raises. *)
Lemma positions_body_malformed (prev : list (list Z)) (i : nat)
    (position : list coordinate) (d : HexapodDevice) :
  length position <> 3%nat ->
  positions_body prev i position d
  = (inl (ValueError "Each position must be [x, y, z]."), with_table prev d).
Proof.
  intros H. destruct position as [|a [|b [|c [|? ?]]]]; try reflexivity.
  destruct H. reflexivity.
Qed.

(** On an entry of three items of which [int()] refuses one, the body raises
    what [int()] raised and assigns nothing. *)
Lemma positions_body_refused (prev : list (list Z)) (i : nat)
    (position : list coordinate) (e : exn) (d : HexapodDevice) :
  length position = 3%nat -> first_refusal position = Some e ->
  positions_body prev i position d = (inl e, d).
Proof.
  intros Hlen Hrefused.
  destruct position as [|[a|ea] [|[b|eb] [|[c|ec] [|? ?]]]]; try discriminate;
    cbn in Hrefused; inversion Hrefused; subst; reflexivity.
Qed.

(** On rows of three integers that fit the table the loop ends normally,
    with the rows written. *)
Lemma positions_loop_writes (prev : list (list Z)) (d : HexapodDevice)
    (ps : list (list Z)) :
  forall (i : nat) (t : list (list Z)),
    Forall triple ps -> (i + length ps <= length t)%nat ->
    for_enumerate (positions_body prev) i (ints ps) (with_table t d)
    = (inr tt, with_table (overwrite i ps t) d).
Proof.
  induction ps as [|p ps IH]; intros i t Hshape Hlen;
    cbn [ints map for_enumerate overwrite].
  - reflexivity.
  - inversion Hshape as [|? ? Hp Hps]; subst.
    destruct (triple_inv p Hp) as (a & b & c & ->).
    cbn [length] in Hlen. cbn [map].
    unfold bind. rewrite positions_body_ints, assign_leg_run, table_with_table.
    rewrite position_in_range by lia. rewrite Nat2Z.id.
    rewrite with_table_with_table.
    apply IH; [exact Hps|]. rewrite length_insert. lia.
Qed.

Lemma overwrite_spec (ps : list (list Z)) :
  forall (i : nat) (t : list (list Z)),
    (i + length ps <= length t)%nat ->
    overwrite i ps t = (take i t ++ ps ++ drop (i + length ps) t)%list.
Proof.
  induction ps as [|p ps IH]; intros i t Hlen; cbn [overwrite length app].
  - rewrite Nat.add_0_r, take_drop. reflexivity.
  - cbn [length] in Hlen.
    rewrite IH by (rewrite length_insert; lia).
    rewrite (take_S_r _ i p) by (apply list_lookup_insert_eq; lia).
    rewrite take_insert_ge, drop_insert_lt by lia.
    rewrite <- app_assoc. cbn.
    replace (i + S (length ps))%nat with (S (i + length ps)) by lia.
    reflexivity.
Qed.

Lemma overwrite_all (ps t : list (list Z)) :
  length ps = length t -> overwrite 0 ps t = ps.
Proof.
  intros H. rewrite overwrite_spec by (cbn; lia).
  cbn. rewrite H, drop_all, app_nil_r. reflexivity.
Qed.

End PositionFacts.

(** ** What the leg setters do *)

Section SetterFacts.
Context {ext : Collaborators}.

Lemma with_events_app (e1 e2 : list hw_event) (d : HexapodDevice) :
  with_events e2 (with_events e1 d) = with_events (e1 ++ e2) d.
Proof.
  destruct d as [c ? ? ? ? ? ? ? ? ? ?]; destruct c.
  unfold with_events, upd_control. cbn. rewrite <- app_assoc. reflexivity.
Qed.

Lemma with_events_nil (d : HexapodDevice) : with_events [] d = d.
Proof.
  destruct d as [c ? ? ? ? ? ? ? ? ? ?]; destruct c.
  unfold with_events, upd_control. cbn. rewrite app_nil_r. reflexivity.
Qed.

Lemma set_servo_angle_event (channel angle : Z) (d : HexapodDevice) :
  set_servo_angle channel angle d = with_events [ServoAngle channel angle] d.
Proof. reflexivity. Qed.

Lemma manual_allowed_with_events (events : list hw_event) (d : HexapodDevice) :
  manual_allowed d -> manual_allowed (with_events events d).
Proof. intros H. exact H. Qed.

(** A leg index of [0,5] has its row of three channels. *)
Lemma leg_channels (i : Z) :
  0 <= i <= 5 ->
  exists ca cb cc, PySeq.getitem _LEG_CHANNELS i = inr [ca; cb; cc].
Proof.
  intros H.
  assert (Hi : i = 0 \/ i = 1 \/ i = 2 \/ i = 3 \/ i = 4 \/ i = 5) by lia.
  destruct Hi as [->|[->|[->|[->|[->| ->]]]]]; cbn; eauto.
Qed.

(** With manual control allowed and an index of [0,5],
    [set_leg_servo_angles] writes the three channels of the leg. *)
Lemma set_leg_servo_angles_run (i a b c : Z) (d : HexapodDevice) :
  manual_allowed d -> 0 <= i <= 5 ->
  exists channels,
    PySeq.getitem _LEG_CHANNELS i = inr channels
    /\ set_leg_servo_angles i a b c d
       = (inr tt, with_events (leg_writes channels a b c) d).
Proof.
  intros Hok Hi. destruct (leg_channels i Hi) as (ca & cb & cc & Hrow).
  exists [ca; cb; cc]. split; [exact Hrow|].
  unfold set_leg_servo_angles.
  rewrite (bind_inr _ _ _ _ _ (ensure_allowed d Hok)).
  rewrite (bind_inr _ _ _ _ _ (assert_inside i d Hi)).
  unfold bind, lift. rewrite Hrow. cbn.
  rewrite !set_servo_angle_event, !with_events_app. reflexivity.
Qed.

(** The loop of [set_leg_servo_angles_all] on well-shaped entries. *)
Lemma servo_loop_runs (angles : list (list Z)) :
  forall (i : nat) (d : HexapodDevice),
    manual_allowed d -> Forall triple angles -> (i + length angles <= 6)%nat ->
    exists events,
      for_enumerate servo_angles_body i angles d = (inr tt, with_events events d).
Proof.
  induction angles as [|p ps IH]; intros i d Hok Hshape Hlen; cbn [for_enumerate].
  - exists []. rewrite with_events_nil. reflexivity.
  - inversion Hshape as [|? ? Hp Hps]; subst. cbn [length] in Hlen.
    destruct (triple_inv p Hp) as (a & b & c & ->).
    destruct (set_leg_servo_angles_run (Z.of_nat i) a b c d Hok ltac:(lia))
      as (channels & _ & Hrun).
    unfold servo_angles_body at 1. rewrite (bind_inr _ _ _ _ _ Hrun).
    destruct (IH (S i) (with_events (leg_writes channels a b c) d)
                (manual_allowed_with_events _ _ Hok) Hps ltac:(lia))
      as (events & Hrest).
    rewrite Hrest, with_events_app. eauto.
Qed.

Lemma calibrated_row (d : HexapodDevice) (i : Z) :
  calibrated d -> 0 <= i <= 5 ->
  exists ca cb cc, calibration_angles (control d) !! Z.to_nat i = Some [ca; cb; cc].
Proof.
  intros [Hlen Hrows] Hi.
  destruct (lookup_lt_is_Some_2 (calibration_angles (control d)) (Z.to_nat i))
    as [row Hrow]; [lia|].
  destruct (triple_inv row) as (ca & cb & cc & ->); [|eauto].
  rewrite Forall_forall in Hrows. apply Hrows.
  eapply list_elem_of_lookup_2, Hrow.
Qed.

Lemma set_leg_joint_angles_run (i a b c : Z) (d : HexapodDevice) :
  manual_allowed d -> calibrated d -> 0 <= i <= 5 ->
  exists events,
    set_leg_joint_angles i a b c d = (inr tt, with_events events d).
Proof.
  intros Hok Hcal Hi.
  destruct (calibrated_row d i Hcal Hi) as (ca & cb & cc & Hrow).
  pose proof (apply_calibration_run d i a b c ca cb cc Hi Hrow) as Hcalib.
  unfold set_leg_joint_angles.
  rewrite (bind_inr _ _ _ _ _ (ensure_allowed d Hok)).
  rewrite (bind_inr _ _ _ _ _ (assert_inside i d Hi)).
  rewrite (bind_inr _ _ _ _ _ Hcalib).
  destruct (i <? 3);
    match goal with
    | |- context [set_leg_servo_angles i ?sa ?sb ?sc d] =>
        destruct (set_leg_servo_angles_run i sa sb sc d Hok Hi)
          as (channels & _ & Hrun)
    end; rewrite Hrun; eauto.
Qed.

Lemma joint_loop_runs (angles : list (list Z)) :
  forall (i : nat) (d : HexapodDevice),
    manual_allowed d -> calibrated d -> Forall triple angles ->
    (i + length angles <= 6)%nat ->
    exists events,
      for_enumerate joint_angles_body i angles d = (inr tt, with_events events d).
Proof.
  induction angles as [|p ps IH]; intros i d Hok Hcal Hshape Hlen;
    cbn [for_enumerate].
  - exists []. rewrite with_events_nil. reflexivity.
  - inversion Hshape as [|? ? Hp Hps]; subst. cbn [length] in Hlen.
    destruct (triple_inv p Hp) as (a & b & c & ->).
    destruct (set_leg_joint_angles_run (Z.of_nat i) a b c d Hok Hcal ltac:(lia))
      as (events1 & Hrun).
    unfold joint_angles_body at 1. rewrite (bind_inr _ _ _ _ _ Hrun).
    destruct (IH (S i) (with_events events1 d)
                (manual_allowed_with_events _ _ Hok) Hcal Hps ltac:(lia))
      as (events & Hrest).
    rewrite Hrest, with_events_app. eauto.
Qed.

End SetterFacts.

(** ** All-or-nothing writes of the position setters *)

Section Rejections.
Context {ext : Collaborators}.

Lemma ensure_run (d : HexapodDevice) :
  _ensure_manual_leg_allowed d =
  if _moving d || _ball_active d then (inl precondition_error, d) else (inr tt, d).
Proof.
  unfold _ensure_manual_leg_allowed, bind, get.
  destruct (_moving d || _ball_active d); reflexivity.
Qed.

Lemma set_leg_angles_event (d : HexapodDevice) :
  set_leg_angles d = (inr tt, with_events [LegAngles (leg_positions (control d))] d).
Proof. reflexivity. Qed.

(** [set_leg_position] with manual control allowed, an index of [0,5] and a
    table that has the leg: the write stays when the validator accepts the
    table, and the device is as before when it does not. *)
Lemma set_leg_position_run (i x y z : Z) (d : HexapodDevice) :
  manual_allowed d -> 0 <= i <= 5 ->
  (Z.to_nat i < length (leg_positions (control d)))%nat ->
  let t' := <[Z.to_nat i := [x; y; z]]> (leg_positions (control d)) in
  set_leg_position i x y z d =
  if check_point_validity t'
  then (inr tt, with_events [LegAngles t'] (with_table t' d))
  else (inl (ValueError "Leg position out of range."), d).
Proof.
  intros Hok Hi Hlen t'.
  destruct (lookup_lt_is_Some_2 _ _ Hlen) as [prev Hprev].
  unfold set_leg_position.
  rewrite (bind_inr _ _ _ _ _ (ensure_allowed d Hok)).
  rewrite (bind_inr _ _ _ _ _ (assert_inside i d Hi)).
  unfold bind at 1. unfold get at 1. unfold bind at 1. unfold lift at 1.
  rewrite (getitem_lookup _ _ _ (proj1 Hi) Hprev).
  unfold bind at 1. rewrite assign_leg_run, position_in_range by lia.
  fold t'. unfold bind at 1. unfold get at 1. rewrite table_with_table.
  destruct (check_point_validity t'); cbn [negb].
  - rewrite set_leg_angles_event, table_with_table. reflexivity.
  - unfold bind. rewrite assign_leg_run, table_with_table.
    rewrite position_in_range by (unfold t'; rewrite length_insert; lia).
    unfold t'. rewrite list_insert_insert_eq, (list_insert_id _ _ _ Hprev).
    rewrite with_table_with_table, with_table_same. reflexivity.
Qed.



(** A batch of integers with an entry that is not a triple stops the loop
    of [set_leg_positions] with the snapshot restored. *)
Lemma positions_loop_malformed (prev : list (list Z)) (d : HexapodDevice)
    (ps : list (list Z)) :
  forall (i : nat) (t : list (list Z)),
    ~ Forall triple ps -> (i + length ps <= length t)%nat ->
    for_enumerate (positions_body prev) i (ints ps) (with_table t d)
    = (inl (ValueError "Each position must be [x, y, z]."), with_table prev d).
Proof.
  induction ps as [|p ps IH]; intros i t Hbad Hlen; cbn [ints map for_enumerate].
  - destruct Hbad. constructor.
  - cbn [length] in Hlen.
    destruct (Nat.eq_dec (length p) 3%nat) as [Hp|Hp].
    + destruct (triple_inv p Hp) as (a & b & c & ->). cbn [map].
      unfold bind. rewrite positions_body_ints, assign_leg_run, table_with_table.
      rewrite position_in_range by lia. rewrite with_table_with_table.
      apply IH; [|rewrite length_insert; lia].
      intros Hps. apply Hbad. constructor; assumption.
    + unfold bind. rewrite positions_body_malformed by (rewrite length_map; exact Hp).
      reflexivity.
Qed.

(** The loop over entries of three integers followed by one more entry:
    the rows are written, then the body runs on that entry. *)
Lemma positions_loop_then (prev : list (list Z)) (d : HexapodDevice)
    (good : list (list Z)) (entry : list coordinate) (rest : list (list coordinate)) :
  forall (i : nat) (t : list (list Z)),
    Forall triple good -> (i + length good <= length t)%nat ->
    for_enumerate (positions_body prev) i (ints good ++ entry :: rest) (with_table t d)
    = bind (positions_body prev (i + length good) entry)
        (fun _ => for_enumerate (positions_body prev) (S (i + length good)) rest)
        (with_table (overwrite i good t) d).
Proof.
  induction good as [|p ps IH]; intros i t Hshape Hlen;
    cbn [ints map app for_enumerate overwrite length].
  - rewrite Nat.add_0_r. reflexivity.
  - inversion Hshape as [|? ? Hp Hps]; subst.
    destruct (triple_inv p Hp) as (a & b & c & ->).
    cbn [length] in Hlen. cbn [map].
    unfold bind at 1. rewrite positions_body_ints, assign_leg_run, table_with_table.
    rewrite position_in_range by lia. rewrite Nat2Z.id.
    rewrite with_table_with_table.
    replace (i + S (length ps))%nat with (S i + length ps)%nat by lia.
    apply (IH (S i)); [exact Hps|]. rewrite length_insert. lia.
Qed.

(** [set_leg_positions] past its two guards. *)
Lemma set_leg_positions_unfold (positions : list (list coordinate))
    (d : HexapodDevice) :
  manual_allowed d -> length positions = 6%nat ->
  let prev := leg_positions (control d) in
  set_leg_positions positions d =
  match for_enumerate (positions_body prev) 0 positions (with_table prev d) with
  | (inl e, d1) => (inl e, d1)
  | (inr _, d1) =>
      if check_point_validity (leg_positions (control d1))
      then set_leg_angles d1
      else (inl (ValueError "Leg positions out of range."), with_table prev d1)
  end.
Proof.
  intros Hok Hlen prev. unfold set_leg_positions.
  rewrite (bind_inr _ _ _ _ _ (ensure_allowed d Hok)), Hlen. cbn [Nat.eqb negb].
  unfold bind at 1. unfold get at 1. fold prev. unfold bind at 1.
  replace (with_table prev d) with d by (symmetry; apply with_table_same).
  destruct (for_enumerate (positions_body prev) 0 positions d) as [[e|[]] d1];
    [reflexivity|].
  unfold bind at 1. unfold get at 1.
  destruct (check_point_validity (leg_positions (control d1))); reflexivity.
Qed.

Lemma length_ints (batch : list (list Z)) : length (ints batch) = length batch.
Proof. apply length_map. Qed.

(** [set_leg_positions] with manual control allowed, on a batch of six
    entries of integers for a table of six. *)
Lemma set_leg_positions_run (positions : list (list Z)) (d : HexapodDevice) :
  manual_allowed d -> length positions = 6%nat ->
  length (leg_positions (control d)) = 6%nat ->
  (Forall triple positions ->
   set_leg_positions (ints positions) d =
   if check_point_validity positions
   then (inr tt, with_events [LegAngles positions] (with_table positions d))
   else (inl (ValueError "Leg positions out of range."), d))
  /\ (~ Forall triple positions ->
      set_leg_positions (ints positions) d
      = (inl (ValueError "Each position must be [x, y, z]."), d)).
Proof.
  intros Hok Hlen Htable.
  rewrite (set_leg_positions_unfold (ints positions) d Hok)
    by (rewrite length_ints; exact Hlen).
  cbv zeta.
  split; intros Hshape.
  - rewrite positions_loop_writes by (cbn; first [exact Hshape|lia]).
    rewrite overwrite_all by congruence.
    rewrite table_with_table.
    destruct (check_point_validity positions).
    + rewrite set_leg_angles_event, table_with_table. reflexivity.
    + rewrite with_table_with_table, with_table_same. reflexivity.
  - rewrite positions_loop_malformed by (cbn; first [exact Hshape|lia]).
    rewrite with_table_same. reflexivity.
Qed.





End Rejections.

(** ** The batch servo setters *)

Section BatchFacts.
Context {ext : Collaborators}.








(** C2.  With the moving flag or the tracking-active flag set, each of the
    six leg setters raises the precondition error and changes nothing; a
    [move] with a nonzero x, y or angle sets the moving flag, so the setters
    then refuse; and after [stop] both flags are clear and each setter ends
    normally, given an index of [0,5] (for the joint setters a calibration
    table of six rows of three), a batch of six triples of integers, and a
    target the validator accepts.  The refusals hold for every batch of
    positions, whatever its items. *)
Theorem manual_control_gate (now : float) (d : HexapodDevice)
    (gait mx my mangle i x y z : Z) (positions : list (list coordinate))
    (batch : list (list Z)) :
  (_moving d || _ball_active d = true -> setters_refuse d i x y z positions batch)
  /\ (mx <> 0 \/ my <> 0 \/ mangle <> 0 ->
      _moving (move now gait mx my mangle d) = true
      /\ setters_refuse (move now gait mx my mangle d) i x y z positions batch)
  /\ manual_allowed (stop now d)
  /\ (0 <= i <= 5 ->
      ((Z.to_nat i < length (leg_positions (control d)))%nat ->
       check_point_validity (<[Z.to_nat i := [x; y; z]]> (leg_positions (control d)))
       = true ->
       fst (set_leg_position i x y z (stop now d)) = inr tt)
      /\ fst (set_leg_servo_angles i x y z (stop now d)) = inr tt
      /\ (calibrated d -> fst (set_leg_joint_angles i x y z (stop now d)) = inr tt))
  /\ (length batch = 6%nat -> Forall triple batch ->
      (length (leg_positions (control d)) = 6%nat ->
       check_point_validity batch = true ->
       fst (set_leg_positions (ints batch) (stop now d)) = inr tt)
      /\ fst (set_leg_servo_angles_all batch (stop now d)) = inr tt
      /\ (calibrated d -> fst (set_leg_joint_angles_all batch (stop now d)) = inr tt)).
Proof.
  pose proof (stop_allows now d) as Hok.
  split; [apply setters_blocked|].
  split.
  { intros Hmove. apply (move_moving now gait) with (d := d) in Hmove.
    split; [exact Hmove|]. apply setters_blocked.
    rewrite Hmove. reflexivity. }
  split; [exact Hok|].
  split.
  - intros Hi. split; [|split].
    + intros Hlen Hcheck.
      rewrite (set_leg_position_run i x y z (stop now d) Hok Hi Hlen).
      cbv zeta. change (leg_positions (control (stop now d)))
        with (leg_positions (control d)).
      rewrite Hcheck. reflexivity.
    + destruct (set_leg_servo_angles_run i x y z (stop now d) Hok Hi)
        as (channels & _ & ->). reflexivity.
    + intros Hcal.
      destruct (set_leg_joint_angles_run i x y z (stop now d) Hok Hcal Hi)
        as (events & ->). reflexivity.
  - intros Hlen Hshape. split; [|split].
    + intros Htable Hcheck.
      rewrite (proj1 (set_leg_positions_run batch (stop now d) Hok Hlen Htable) Hshape).
      rewrite Hcheck. reflexivity.
    + unfold set_leg_servo_angles_all.
      rewrite (bind_inr _ _ _ _ _ (ensure_allowed _ Hok)), Hlen. cbn [Nat.eqb negb].
      destruct (servo_loop_runs batch 0 (stop now d) Hok Hshape ltac:(lia))
        as (events & ->). reflexivity.
    + intros Hcal. unfold set_leg_joint_angles_all.
      rewrite (bind_inr _ _ _ _ _ (ensure_allowed _ Hok)), Hlen. cbn [Nat.eqb negb].
      destruct (joint_loop_runs batch 0 (stop now d) Hok Hcal Hshape ltac:(lia))
        as (events & ->). reflexivity.
Qed.

End BatchFacts.



(** On the sample robot: after [move] with x = 10 a leg write is refused, and
    after [stop] the same write is made. *)
Lemma manual_control_gate_witness :
  let walking := move (ext := Sample.ext) 0 1 10 0 0 Sample.device0 in
  set_leg_position (ext := Sample.ext) 0 150 0 0 walking
  = (inl precondition_error, walking)
  /\ fst (set_leg_position (ext := Sample.ext) 0 150 0 0
            (stop (ext := Sample.ext) 1 walking)) = inr tt.
Proof.
  cbv zeta.
  pose proof (manual_control_gate (ext := Sample.ext) 1
                (move (ext := Sample.ext) 0 1 10 0 0 Sample.device0)
                1 10 0 0 0 150 0 0 [] [])
    as (Hblocked & _ & _ & Hsingle & _).
  split.
  - apply Hblocked. reflexivity.
  - destruct (Hsingle ltac:(lia)) as (Hposition & _ & _).
    apply Hposition; [apply Nat.ltb_lt; reflexivity|reflexivity].
Defined.

(** ** A tick of the tracking loop *)

Section TickFacts.
Context {ext : Collaborators}.

Lemma clamp_bounds (v lo hi : Z) : lo <= hi -> lo <= clamp v lo hi <= hi.
Proof. unfold clamp. lia. Qed.

(** [int(x)] and [round(x)] are defined exactly on the finite floats. *)
Lemma to_int_defined (x : float) :
  PyFloat.finite x = true <-> exists n, PyFloat.to_int x = inr n.
Proof.
  unfold PyFloat.finite, PyFloat.to_int.
  destruct (Prim2SF x); split; intros H; eauto; try discriminate;
    destruct H as [n H]; discriminate.
Qed.

Lemma round_defined (x : float) :
  PyFloat.finite x = true <-> exists n, PyFloat.round x = inr n.
Proof.
  unfold PyFloat.finite, PyFloat.round.
  destruct (Prim2SF x) as [s|s| |s m e]; split; intros H; eauto;
    try discriminate; try (destruct H as [n H]; discriminate).
  destruct (0 <=? e); eauto.
Qed.

(** The run of a tick that found a target, when its numeric conversions are
    defined. *)
Lemma tick_found_run (now : float) (d : HexapodDevice) (cx cy : Z)
    (radius ratio : float) (distance : Z) (fx fd : float) (angle_int step_int : Z) :
  PyFloat.div 2700 (2 * radius) = inr ratio ->
  PyFloat.round ratio = inr distance ->
  PyFloat.of_int cx = inr fx ->
  PyFloat.of_int distance = inr fd ->
  PyFloat.to_int (fst (PID.compute (_pid_x d) fx)) = inr angle_int ->
  PyFloat.to_int (fst (PID.compute (_pid_distance d) fd)) = inr step_int ->
  let turn := clamp angle_int (-10) 10 in
  let step := clamp step_int (-15) 15 in
  let published :=
    publish now [CMD_MOVE; "1"; "0"; str step; str (move_speed d); str turn]
      (set__pid_distance (snd (PID.compute (_pid_distance d) fd))
         (set__pid_x (snd (PID.compute (_pid_x d) fx))
            (set__ball_tracking true d))) in
  tick now (Some (cx, cy)) radius d =
  (inr tt,
   if (step =? 0) && (turn =? 0) then set__ball_tracking false published
   else published).
Proof.
  intros Hratio Hdist Hfx Hfd Hangle Hstep turn step published.
  unfold tick, compute_x, compute_distance, bind, modify, lift, get, ret.
  rewrite Hratio, Hdist, Hfx.
  cbn [_pid_x set__ball_tracking].
  destruct (PID.compute (_pid_x d) fx) as [angle_out pid_x'] eqn:Hx.
  rewrite Hfd.
  change (_pid_distance (set__pid_x pid_x' (set__ball_tracking true d)))
    with (_pid_distance d).
  destruct (PID.compute (_pid_distance d) fd) as [step_out pid_d'] eqn:Hd.
  cbn [fst snd] in *. rewrite Hangle, Hstep.
  change (move_speed (set__pid_distance pid_d'
                        (set__pid_x pid_x' (set__ball_tracking true d))))
    with (move_speed d).
  fold (clamp angle_int (-10) 10). fold (clamp step_int (-15) 15).
  fold turn. fold step. unfold published.
  destruct ((step =? 0) && (turn =? 0)); reflexivity.
Qed.

(** C7, as the code has it.  On a tick in which a target is found and the
    numeric conversions are defined (the PID outputs are finite), the x-axis
    output is clamped to an integer turn angle of [-10, 10] and the distance
    output to an integer step of [-15, 15], the command Move with gait 1,
    x 0, y the step, the current speed and the turn angle is published with
    the clock's reading, and, the tracking-active flag being set,
    [ball_state] reads "completed" exactly when both clamped values are 0
    and "ongoing" otherwise. *)
Theorem tick_on_target (now : float) (d : HexapodDevice) (cx cy : Z)
    (radius ratio : float) (distance : Z) (fx fd : float) (angle_int step_int : Z) :
  _ball_active d = true ->
  PyFloat.div 2700 (2 * radius) = inr ratio ->
  PyFloat.round ratio = inr distance ->
  PyFloat.of_int cx = inr fx ->
  PyFloat.of_int distance = inr fd ->
  PyFloat.to_int (fst (PID.compute (_pid_x d) fx)) = inr angle_int ->
  PyFloat.to_int (fst (PID.compute (_pid_distance d) fd)) = inr step_int ->
  let turn := clamp angle_int (-10) 10 in
  let step := clamp step_int (-15) 15 in
  let r := tick now (Some (cx, cy)) radius d in
  fst r = inr tt
  /\ -10 <= turn <= 10
  /\ -15 <= step <= 15
  /\ command_queue (control (snd r))
     = [CMD_MOVE; "1"; "0"; str step; str (move_speed d); str turn]
  /\ timeout (control (snd r)) = now
  /\ (ball_state (snd r) = "completed" <-> turn = 0 /\ step = 0)
  /\ (~ (turn = 0 /\ step = 0) -> ball_state (snd r) = "ongoing").
Proof.
  intros Hactive Hratio Hdist Hfx Hfd Hangle Hstep turn step r.
  unfold r.
  rewrite (tick_found_run now d cx cy radius ratio distance fx fd angle_int step_int
             Hratio Hdist Hfx Hfd Hangle Hstep).
  cbv zeta. fold turn. fold step. cbn [fst snd].
  split; [reflexivity|].
  split; [apply clamp_bounds; lia|].
  split; [apply clamp_bounds; lia|].
  destruct (Z.eqb_spec step 0) as [Hs|Hs], (Z.eqb_spec turn 0) as [Ht|Ht];
    cbn [andb]; unfold ball_state; cbn; rewrite Hactive;
    (split; [reflexivity|]); (split; [reflexivity|]);
    (split; [split; [intros H; first [discriminate H | split; assumption]
                    | intros [? ?]; first [reflexivity | contradiction]]
            | intros H; first [reflexivity | destruct H; split; assumption]]).
Qed.

End TickFacts.

(** A new device told to track: the target sits at column 180 with radius
    22.5, so at distance 60; both outputs clamp to 0 and the state reads
    "completed". *)
Lemma tick_on_target_witness :
  let d := ball_start Sample.device0 in
  let r := tick (ext := Sample.ext) 1 (Some (180, 120)) 22.5 d in
  fst r = inr tt
  /\ command_queue (control (snd r)) = ["CMD_MOVE"; "1"; "0"; "0"; "8"; "0"]
  /\ ball_state (snd r) = "completed".
Proof.
  cbv zeta.
  pose proof (tick_on_target (ext := Sample.ext) 1 (ball_start Sample.device0)
                180 120 22.5 60 60 180 60 0 0
                eq_refl eq_refl eq_refl eq_refl eq_refl eq_refl eq_refl)
    as (Hrun & _ & _ & Hqueue & _ & Hstate & _).
  split; [exact Hrun|]. split; [exact Hqueue|].
  apply Hstate. split; reflexivity.
Defined.

(** C7 as stated fails once a direct [stop] has cleared the tracking-active
    flag: the loop started by [ball_start] is still running, its tick finds
    the centred target and publishes the zero move, and [ball_state] reads
    "not tracking", not "completed". *)
Lemma tick_after_stop_not_completed :
  let d := stop (ext := Sample.ext) 0 (ball_start Sample.device0) in
  let r := tick (ext := Sample.ext) 1 (Some (180, 120)) 22.5 d in
  loop_running d = true
  /\ fst r = inr tt
  /\ command_queue (control (snd r)) = ["CMD_MOVE"; "1"; "0"; "0"; "8"; "0"]
  /\ ball_state (snd r) = "not tracking"
  /\ ball_state (snd r) <> "completed".
Proof.
  cbv zeta. repeat split; try reflexivity.
  vm_compute. discriminate.
Qed.

(** ** The RPC bridge *)

Section BridgeFacts.
Context {D R : Type}.
Variable device_getattr : D -> string -> attribute D R.
Variable json_loads : string -> parsed.
Variable _serialize : R -> json.
Variable device_connected : D -> bool.

Lemma not_intercepted (name : string) :
  ~ intercepted name ->
  String.eqb name "ping" = false
  /\ String.eqb name "status" = false
  /\ String.eqb name "shutdown" = false.
Proof.
  unfold intercepted. intros H.
  repeat split; apply String.eqb_neq; intros ->; apply H; auto.
Qed.

(** [dispatch] on a request that passes the three guards and is not
    answered by the bridge itself: what the attribute lookup decides. *)
Lemma dispatch_lookup (now : float) (srv : HexapodRPCServer D)
    (members : list (string * json)) (name : string) (args : list json)
    (kwargs : list (string * json)) :
  calls members name args kwargs ->
  ~ intercepted name ->
  let req_id := dict_get members "id" JNull in
  dispatch device_getattr _serialize device_connected now (JDict members) srv =
  match device_getattr (device srv) name with
  | Method func =>
      match func args kwargs (device srv) with
      | (inl exc, d') =>
          (inr (error_response req_id (exn_name exc ++ ": " ++ exn_msg exc)),
           set_device d' srv)
      | (inr result, d') =>
          (inr (ok_response req_id (_serialize result)), set_device d' srv)
      end
  | Absent | Data => (inr (error_response req_id ("Unknown method: " ++ name)), srv)
  end.
Proof.
  intros (Hmethod & Hargs & Hkwargs) Hname req_id.
  destruct (not_intercepted name Hname) as (Hping & Hstatus & Hshutdown).
  unfold dispatch. rewrite Hmethod, Hargs, Hkwargs, Hping, Hstatus, Hshutdown.
  fold req_id. unfold call_device.
  destruct (device_getattr (device srv) name) as [| |func]; try reflexivity.
  destruct (func args kwargs (device srv)) as [[exc|result] d']; reflexivity.
Qed.

(** C8, as the code has it.  For a request whose method is a string other
    than ping, status and shutdown, and whose args and kwargs (given or
    defaulted) are a list and an object: when the name finds no callable
    attribute of the device, [dispatch] returns the envelope
    (id, ok false, error "Unknown method: <name>") and leaves the server as
    it was; when it finds a method that raises, [dispatch] returns the
    envelope whose error is the exception's class name, a colon and its
    message, and does not raise.  A line on which [json.loads] raises
    [JSONDecodeError] is answered with an error envelope whose id is null,
    and the handler goes on with the next line. *)
Theorem dispatch_failures (now : float) (srv : HexapodRPCServer D)
    (members : list (string * json)) (name : string) (args : list json)
    (kwargs : list (string * json)) :
  let req_id := dict_get members "id" JNull in
  (calls members name args kwargs -> ~ intercepted name ->
   (device_getattr (device srv) name = Absent
    \/ device_getattr (device srv) name = Data) ->
   dispatch device_getattr _serialize device_connected now (JDict members) srv
   = (inr (error_response req_id ("Unknown method: " ++ name)), srv))
  /\ (forall func exc d',
        calls members name args kwargs -> ~ intercepted name ->
        device_getattr (device srv) name = Method func ->
        func args kwargs (device srv) = (inl exc, d') ->
        dispatch device_getattr _serialize device_connected now (JDict members) srv
        = (inr (error_response req_id (exn_name exc ++ ": " ++ exn_msg exc)),
           set_device d' srv))
  /\ (forall raw text rest,
        raw <> "" -> strip raw <> "" ->
        json_loads (strip raw) = JSONDecodeError text ->
        handle device_getattr json_loads _serialize device_connected
          ((now, raw) :: rest) srv
        = let '(sent, err, srv') :=
            handle device_getattr json_loads _serialize device_connected rest srv in
          (error_response JNull ("Invalid JSON: " ++ text) :: sent, err, srv')).
Proof.
  intros req_id. split; [|split].
  - intros Hcalls Hname Hlookup.
    rewrite (dispatch_lookup now srv members name args kwargs Hcalls Hname).
    fold req_id. destruct Hlookup as [-> | ->]; reflexivity.
  - intros func exc d' Hcalls Hname Hlookup Hraise.
    rewrite (dispatch_lookup now srv members name args kwargs Hcalls Hname).
    fold req_id. rewrite Hlookup, Hraise. reflexivity.
  - intros raw text rest Hraw Hstrip Hloads. cbn [handle].
    apply String.eqb_neq in Hraw. apply String.eqb_neq in Hstrip.
    rewrite Hraw, Hstrip, Hloads. reflexivity.
Qed.

(** The guards that come before the lookup: a request without a method, with
    [args] that is not a list, or with [kwargs] that is not an object, is
    answered before the method name is looked at. *)
Lemma dispatch_guards (now : float) (srv : HexapodRPCServer D)
    (members : list (string * json)) :
  let req_id := dict_get members "id" JNull in
  let run := dispatch device_getattr _serialize device_connected now
               (JDict members) srv in
  (dict_get members "method" JNull = JNull ->
   run = (inr (error_response req_id "Missing 'method'"), srv))
  /\ (dict_get members "method" JNull <> JNull ->
      (forall args, dict_get members "args" (JList []) <> JList args) ->
      run = (inr (error_response req_id "'args' must be a list"), srv)).
Proof.
  intros req_id run. unfold run, dispatch. fold req_id. split.
  - intros ->. reflexivity.
  - intros Hmethod Hargs.
    destruct (dict_get members "method" JNull); try contradiction;
      destruct (dict_get members "args" (JList [])) as [| | | | |args|];
      try reflexivity; destruct (Hargs args); reflexivity.
Qed.

End BridgeFacts.

(** On the sample robot: the unknown method "nope", a leg write whose index
    is refused by the device, and a line that is not JSON. *)
Lemma dispatch_failures_witness :
  dispatch Sample.getattr Sample.serialize connected 0 Sample.unknown_call
    Sample.server0
  = (inr (error_response (JStr "y") "Unknown method: nope"), Sample.server0)
  /\ dispatch Sample.getattr Sample.serialize connected 0 Sample.leg_call
       Sample.server0
     = (inr (error_response (JInt 7) "ValueError: leg_index must be in [0, 5]"),
        Sample.server0)
  /\ handle Sample.getattr Sample.loads Sample.serialize connected
       [(0%float, "garbage")] Sample.server0
     = ([error_response JNull
           "Invalid JSON: Expecting value: line 1 column 1 (char 0)"],
        None, Sample.server0).
Proof.
  split; [|split].
  - pose proof (dispatch_failures Sample.getattr Sample.loads Sample.serialize
                  connected 0 Sample.server0
                  [("id", JStr "y"); ("method", JStr "nope")] "nope" [] [])
      as (Hunknown & _ & _).
    apply Hunknown.
    + repeat split.
    + intros [H|[H|H]]; discriminate H.
    + left. reflexivity.
  - pose proof (dispatch_failures Sample.getattr Sample.loads Sample.serialize
                  connected 0 Sample.server0
                  [("id", JInt 7); ("method", JStr "set_leg_position");
                   ("args", JList [JInt 9; JInt 140; JInt 0; JInt 0])]
                  "set_leg_position" [JInt 9; JInt 140; JInt 0; JInt 0] [])
      as (_ & Hraise & _).
    unfold Sample.leg_call.
    erewrite (Hraise _ index_error Sample.device0).
    + reflexivity.
    + repeat split.
    + intros [H|[H|H]]; discriminate H.
    + reflexivity.
    + reflexivity.
  - pose proof (dispatch_failures Sample.getattr Sample.loads Sample.serialize
                  connected 0 Sample.server0 [] "" [] [])
      as (_ & _ & Hline).
    rewrite (Hline "garbage"
               "Expecting value: line 1 column 1 (char 0)" []);
      [reflexivity|discriminate|discriminate|reflexivity].
Defined.

(** C8 as stated fails on a request whose [args] is not a list: the method
    "nope" is none of the three intercepted names and finds no attribute of
    the device, and the envelope carries the error of the [args] guard, not
    "Unknown method: nope". *)
Lemma unknown_method_bad_args :
  Sample.getattr Sample.device0 "nope" = Absent
  /\ dispatch Sample.getattr Sample.serialize connected 0
       Sample.unknown_call_bad_args Sample.server0
     = (inr (error_response (JStr "y") "'args' must be a list"), Sample.server0)
  /\ dispatch Sample.getattr Sample.serialize connected 0
       Sample.unknown_call_bad_args Sample.server0
     <> (inr (error_response (JStr "y") "Unknown method: nope"), Sample.server0).
Proof.
  split; [reflexivity|]. split; [reflexivity|].
  intros H. discriminate H.
Qed.

(** * Further properties of the code *)

(** ** The command slot and the lifecycle of the tracking task *)

Section FacadeMore.
Context {ext : Collaborators}.

(** X1.  The command slot keeps no trace of an earlier [move]: a [move]
    after a [move] leaves the device exactly as the later one alone does,
    and so does a [stop] after a [move]. *)
Theorem last_move_wins (now now' : float) (gait x y angle gait' x' y' angle' : Z)
    (d : HexapodDevice) :
  move now gait x y angle (move now' gait' x' y' angle' d) = move now gait x y angle d
  /\ stop now (move now' gait' x' y' angle' d) = stop now d
  /\ stop now (stop now' d) = stop now d.
Proof.
  destruct d as [c cs co ms th st ac tr px pd mv]; destruct c.
  repeat split.
Qed.

(** X2.  [speed] returns the tempo it stores, changes nothing else, and the
    stored tempo is the speed field of the command a later [move] or a later
    tick publishes. *)
Theorem speed_is_published (now : float) (tempo gait x y angle : Z)
    (radius : float) (d : HexapodDevice) :
  fst (speed tempo d) = tempo
  /\ snd (speed tempo d) = set_move_speed tempo d
  /\ command_queue (control (move now gait x y angle (snd (speed tempo d))))
     = [CMD_MOVE; str gait; str x; str y; str tempo; str angle]
  /\ command_queue (control (snd (tick now None radius (snd (speed tempo d)))))
     = [CMD_MOVE; "1"; "0"; "0"; str tempo; "0"].
Proof. repeat split. Qed.


(** X4.  [disconnect] leaves the device not connected, the camera stream
    off, the servo power cut, no tracking loop alive, the zero move in the
    slot and manual leg control allowed; a [connect] after it sets the
    connected flag and the camera stream again and does not restore the
    servo power. *)
Theorem disconnect_leaves (now : float) (exits : bool) (d : HexapodDevice) :
  let d' := disconnect now exits d in
  connected d' = false
  /\ camera_streaming d' = false
  /\ servo_power_disable (control d') = true
  /\ is_alive (_ball_thread d') = false
  /\ ball_state d' = "not tracking"
  /\ command_queue (control d') = [CMD_MOVE; "1"; "0"; "0"; str (move_speed d); "0"]
  /\ manual_allowed d'
  /\ connected (connect d') = true
  /\ camera_streaming (connect d') = true
  /\ servo_power_disable (control (connect d')) = true.
Proof.
  destruct d as [c cs co ms [[]|] st ac tr px pd mv], exits, cs;
    destruct c as [q t legs cal pw [] hw]; repeat split.
Qed.

(** X5.  [connect] is idempotent, and it touches neither the command slot,
    the leg table, the servo power nor the tracking flags. *)
Theorem connect_idempotent (d : HexapodDevice) :
  connect (connect d) = connect d
  /\ connected (connect d) = true
  /\ camera_streaming (connect d) = true
  /\ condition_thread_alive (control (connect d)) = true
  /\ command_queue (control (connect d)) = command_queue (control d)
  /\ leg_positions (control (connect d)) = leg_positions (control d)
  /\ servo_power_disable (control (connect d)) = servo_power_disable (control d)
  /\ task_flags (connect d) = task_flags d.
Proof.
  destruct d as [c cs co ms th st ac tr px pd mv];
    destruct c as [q t legs cal pw [] hw], cs; repeat split.
Qed.

End FacadeMore.

(** ** The tracking loop *)

Section LoopFacts.
Context {ext : Collaborators}.

(** A tick that found a target, conversion by conversion. *)
Lemma tick_found_cases (now : float) (d : HexapodDevice) (cx cy : Z) (radius : float) :
  tick now (Some (cx, cy)) radius d =
  let d0 := set__ball_tracking true d in
  match PyFloat.div 2700 (2 * radius) with
  | inl e => (inl e, d0)
  | inr ratio =>
    match PyFloat.round ratio with
    | inl e => (inl e, d0)
    | inr distance =>
      match PyFloat.of_int cx with
      | inl e => (inl e, d0)
      | inr fx =>
        let d1 := set__pid_x (snd (PID.compute (_pid_x d) fx)) d0 in
        match PyFloat.of_int distance with
        | inl e => (inl e, d1)
        | inr fd =>
          let d2 := set__pid_distance (snd (PID.compute (_pid_distance d) fd)) d1 in
          match PyFloat.to_int (fst (PID.compute (_pid_x d) fx)) with
          | inl e => (inl e, d2)
          | inr angle_int =>
            match PyFloat.to_int (fst (PID.compute (_pid_distance d) fd)) with
            | inl e => (inl e, d2)
            | inr step_int =>
              let turn := clamp angle_int (-10) 10 in
              let step := clamp step_int (-15) 15 in
              let published :=
                publish now
                  [CMD_MOVE; "1"; "0"; str step; str (move_speed d); str turn] d2 in
              (inr tt,
               if (step =? 0) && (turn =? 0)
               then set__ball_tracking false published else published)
            end
          end
        end
      end
    end
  end.
Proof.
  cbv zeta.
  unfold tick, compute_x, compute_distance, bind, modify, lift, get, ret.
  destruct (PyFloat.div 2700 (2 * radius)) as [e|ratio]; [reflexivity|].
  destruct (PyFloat.round ratio) as [e|distance]; [reflexivity|].
  destruct (PyFloat.of_int cx) as [e|fx]; [reflexivity|].
  change (_pid_x (set__ball_tracking true d)) with (_pid_x d).
  destruct (PID.compute (_pid_x d) fx) as [angle_out pid_x'].
  destruct (PyFloat.of_int distance) as [e|fd]; [reflexivity|].
  change (_pid_distance (set__pid_x pid_x' (set__ball_tracking true d)))
    with (_pid_distance d).
  destruct (PID.compute (_pid_distance d) fd) as [step_out pid_d'].
  cbn [fst snd].
  destruct (PyFloat.to_int angle_out) as [e|angle_int]; [reflexivity|].
  destruct (PyFloat.to_int step_out) as [e|step_int]; [reflexivity|].
  unfold clamp.
  destruct (((-15) `max` (15 `min` step_int) =? 0)
            && ((-10) `max` (10 `min` angle_int) =? 0)); reflexivity.
Qed.

(** X6.  A tick that raises has published nothing: the command slot, its
    timestamp and the rest of [Control] are as before the tick. *)
Theorem tick_failure_publishes_nothing (now : float) (center : option (Z * Z))
    (radius : float) (d : HexapodDevice) (e : exn) :
  fst (tick now center radius d) = inl e ->
  control (snd (tick now center radius d)) = control d.
Proof.
  destruct center as [[cx cy]|]; [|discriminate].
  rewrite tick_found_cases. cbv zeta.
  destruct (PyFloat.div 2700 (2 * radius)) as [e0|ratio]; [reflexivity|].
  destruct (PyFloat.round ratio) as [e0|distance]; [reflexivity|].
  destruct (PyFloat.of_int cx) as [e0|fx]; [reflexivity|].
  destruct (PyFloat.of_int distance) as [e0|fd]; [reflexivity|].
  destruct (PyFloat.to_int _) as [e0|angle_int]; [reflexivity|].
  destruct (PyFloat.to_int _) as [e0|step_int]; [reflexivity|].
  discriminate.
Qed.

(** X7.  A tick without a target never raises: it publishes the zero move
    at the current speed, leaves both controllers alone, and sets the
    transient flag, so an active state that read "completed" reads
    "ongoing" again. *)
Theorem tick_without_target (now : float) (radius : float) (d : HexapodDevice) :
  let r := tick now None radius d in
  fst r = inr tt
  /\ command_queue (control (snd r)) = [CMD_MOVE; "1"; "0"; "0"; str (move_speed d); "0"]
  /\ timeout (control (snd r)) = now
  /\ _pid_x (snd r) = _pid_x d
  /\ _pid_distance (snd r) = _pid_distance d
  /\ (_ball_active d = true -> ball_state (snd r) = "ongoing").
Proof.
  cbv zeta. do 5 (split; [reflexivity|]).
  intros Hactive. unfold ball_state. cbn. rewrite Hactive. reflexivity.
Qed.

(** X8.  The command a tick publishes does not depend on the command that
    was in the slot: after a direct [stop], a tick that ends normally
    publishes what it would have published without the [stop]. *)
Theorem tick_overrides_stop (now now' : float) (center : option (Z * Z))
    (radius : float) (d : HexapodDevice) :
  fst (tick now center radius (stop now' d)) = fst (tick now center radius d)
  /\ (fst (tick now center radius d) = inr tt ->
      command_queue (control (snd (tick now center radius (stop now' d))))
      = command_queue (control (snd (tick now center radius d)))
      /\ timeout (control (snd (tick now center radius (stop now' d)))) = now).
Proof.
  destruct center as [[cx cy]|]; [|split; [reflexivity|intros _; split; reflexivity]].
  rewrite !tick_found_cases. cbv zeta.
  change (_pid_x (stop now' d)) with (_pid_x d).
  change (_pid_distance (stop now' d)) with (_pid_distance d).
  change (move_speed (stop now' d)) with (move_speed d).
  destruct (PyFloat.div 2700 (2 * radius)) as [e0|ratio];
    [split; [reflexivity|discriminate]|].
  destruct (PyFloat.round ratio) as [e0|distance];
    [split; [reflexivity|discriminate]|].
  destruct (PyFloat.of_int cx) as [e0|fx]; [split; [reflexivity|discriminate]|].
  destruct (PyFloat.of_int distance) as [e0|fd];
    [split; [reflexivity|discriminate]|].
  destruct (PyFloat.to_int _) as [e0|angle_int];
    [split; [reflexivity|discriminate]|].
  destruct (PyFloat.to_int _) as [e0|step_int];
    [split; [reflexivity|discriminate]|].
  split; [reflexivity|]. intros _.
  destruct ((clamp step_int (-15) 15 =? 0) && (clamp angle_int (-10) 10 =? 0));
    split; reflexivity.
Qed.

(** X9.  When the loop body keeps a centre, the moment [m00] is positive and
    the radius is not below the minimum of 7; without a contour there is no
    centre. *)
Theorem locate_target (found : option contour) (cx cy : Z) (radius : float) :
  locate found = inr (Some (cx, cy), radius) ->
  exists c,
    found = Some c
    /\ radius = radius_of c
    /\ (0 <? m00 c)%float = true
    /\ (radius <? 7)%float = false
    /\ exists qx qy,
         PyFloat.div (m10 c) (m00 c) = inr qx /\ PyFloat.to_int qx = inr cx
         /\ PyFloat.div (m01 c) (m00 c) = inr qy /\ PyFloat.to_int qy = inr cy.
Proof.
  unfold locate. destruct found as [c|]; [|discriminate].
  destruct (0 <? m00 c)%float eqn:Hm00; [|discriminate].
  destruct (PyFloat.div (m10 c) (m00 c)) as [e|qx] eqn:Hqx; [discriminate|].
  destruct (PyFloat.to_int qx) as [e|cx'] eqn:Hcx; [discriminate|].
  destruct (PyFloat.div (m01 c) (m00 c)) as [e|qy] eqn:Hqy; [discriminate|].
  destruct (PyFloat.to_int qy) as [e|cy'] eqn:Hcy; [discriminate|].
  destruct (radius_of c <? 7)%float eqn:Hradius; [discriminate|].
  intros H. inversion H; subst.
  exists c. repeat split; try assumption. exists qx, qy. repeat split; assumption.
Qed.

(** The loop body touches neither the tracking-active flag nor the moving
    flag, the thread or the stop event. *)
Lemma iteration_preserves_flags (now : float) (obs : observation) :
  preserves task_flags (iteration now obs).
Proof.
  unfold iteration. apply preserves_bind.
  - apply preserves_modify. intros s. destruct (negb (camera_streaming s)); reflexivity.
  - intros _. destruct obs as [|found]; [apply preserves_ret|].
    apply preserves_bind; [apply preserves_lift|].
    intros located. apply tick_preserves_flags.
Qed.

(** The loop body publishes nothing when it raises. *)
Lemma iteration_failure_control (now : float) (obs : observation)
    (d : HexapodDevice) (e : exn) :
  fst (iteration now obs d) = inl e ->
  control (snd (iteration now obs d)) = control d.
Proof.
  unfold iteration, bind, modify, lift.
  destruct obs as [|found]; [discriminate|].
  destruct (locate found) as [e0|[center radius]]; cbn [fst snd].
  - intros _. destruct (negb (camera_streaming d)); reflexivity.
  - intros H.
    rewrite (tick_failure_publishes_nothing _ _ _ _ e H).
    destruct (negb (camera_streaming d)); reflexivity.
Qed.

(** X10.  A turn of a running loop whose body raises ends the thread and
    publishes nothing: the last command stays in the slot, the
    tracking-active flag stays as it was, so the leg setters still refuse
    and [ball_state] does not read "not tracking"; [ball_start] then starts
    a loop again. *)
Theorem loop_turn_crash (now : float) (obs : observation) (d : HexapodDevice)
    (e : exn) (i x y z : Z) (positions : list (list coordinate))
    (batch : list (list Z)) :
  loop_running d = true ->
  _ball_active d = true ->
  fst (iteration now obs d) = inl e ->
  let d' := loop_turn now obs d in
  loop_running d' = false
  /\ control d' = control d
  /\ _ball_active d' = true
  /\ ball_state d' <> "not tracking"
  /\ setters_refuse d' i x y z positions batch
  /\ loop_running (ball_start d') = true.
Proof.
  intros Hrun Hactive Hraise d'.
  unfold loop_running in Hrun. apply andb_true_iff in Hrun as [Halive Hstop].
  apply negb_true_iff in Hstop.
  pose proof (iteration_preserves_flags now obs d) as Hflags.
  pose proof (iteration_failure_control now obs d e Hraise) as Hcontrol.
  unfold task_flags in Hflags. inversion Hflags as [[Hac Hth Hst Hmv]].
  assert (Hd' : d' = set__ball_thread (Some Exited) (snd (iteration now obs d))).
  { unfold d', loop_turn. rewrite Halive, Hstop.
    destruct (iteration now obs d) as [[e0|[]] d1]; [reflexivity|discriminate]. }
  assert (Hactive' : _ball_active d' = true).
  { rewrite Hd'. unfold set__ball_thread. cbn [_ball_active].
    exact (eq_trans Hac Hactive). }
  split; [rewrite Hd'; reflexivity|].
  split; [rewrite Hd'; exact Hcontrol|].
  split; [exact Hactive'|].
  split.
  { unfold ball_state. rewrite Hactive'.
    destruct (_ball_tracking d'); discriminate. }
  split.
  { apply setters_blocked. rewrite Hactive'. apply orb_true_r. }
  rewrite Hd'. reflexivity.
Qed.

End LoopFacts.

(** A tick with radius 0 divides by zero: the slot of the sample robot keeps
    what it held. *)
Lemma tick_failure_publishes_nothing_witness :
  fst (tick (ext := Sample.ext) 1 (Some (180, 120)) 0 Sample.device0)
  = inl (ZeroDivisionError "float division by zero")
  /\ control (snd (tick (ext := Sample.ext) 1 (Some (180, 120)) 0 Sample.device0))
     = control Sample.device0.
Proof.
  split; [reflexivity|].
  apply (tick_failure_publishes_nothing (ext := Sample.ext) 1 (Some (180, 120)) 0
           Sample.device0 (ZeroDivisionError "float division by zero")).
  reflexivity.
Defined.

(** A contour of radius 20 whose moments put the centroid at (180, 120). *)
Lemma locate_target_witness :
  exists c,
    Some (mkContour 20 100 18000 12000) = Some c
    /\ 20%float = radius_of c
    /\ (0 <? m00 c)%float = true
    /\ (20 <? 7)%float = false
    /\ exists qx qy,
         PyFloat.div (m10 c) (m00 c) = inr qx /\ PyFloat.to_int qx = inr 180
         /\ PyFloat.div (m01 c) (m00 c) = inr qy /\ PyFloat.to_int qy = inr 120.
Proof.
  apply (locate_target (Some (mkContour 20 100 18000 12000)) 180 120 20).
  reflexivity.
Defined.

(** The sample robot is tracking and a frame comes whose first moment is
    infinite: the turn ends the loop and the slot is untouched. *)
Lemma loop_turn_crash_witness :
  let d := ball_start Sample.device0 in
  let obs := Seen (Some (mkContour 20 1 infinity 120)) in
  loop_running (loop_turn (ext := Sample.ext) 1 obs d) = false
  /\ control (loop_turn (ext := Sample.ext) 1 obs d) = control d
  /\ ball_state (loop_turn (ext := Sample.ext) 1 obs d) = "ongoing".
Proof.
  cbv zeta.
  pose proof (loop_turn_crash (ext := Sample.ext) 1
                (Seen (Some (mkContour 20 1 infinity 120)))
                (ball_start Sample.device0)
                (OverflowError "cannot convert float infinity to integer")
                0 0 0 0 [] [] eq_refl eq_refl eq_refl)
    as (Hloop & Hcontrol & _).
  split; [exact Hloop|]. split; [exact Hcontrol|]. reflexivity.
Defined.

(** ** A controller that has met a NaN *)

Section NanFacts.
Import PID.
Local Open Scope float_scope.








End NanFacts.


(** ** More on the leg setters *)

Section LegMore.
Context {ext : Collaborators}.





(** X13.  An accepted write, exactly: with manual control allowed,
    [set_leg_position] on an index of [0,5] replaces that row of the table
    by [x, y, z] and leaves the other rows, and [set_leg_positions] on six
    triples of integers replaces the six rows by the batch; each then calls
    [set_leg_angles] once, on the new table, and changes nothing else. *)
Theorem accepted_position_writes (d : HexapodDevice) (i x y z : Z)
    (batch : list (list Z)) :
  manual_allowed d ->
  length (leg_positions (control d)) = 6%nat ->
  let t := leg_positions (control d) in
  (0 <= i <= 5 ->
   check_point_validity (<[Z.to_nat i := [x; y; z]]> t) = true ->
   set_leg_position i x y z d
   = (inr tt, with_events [LegAngles (<[Z.to_nat i := [x; y; z]]> t)]
                (with_table (<[Z.to_nat i := [x; y; z]]> t) d))
   /\ <[Z.to_nat i := [x; y; z]]> t !! Z.to_nat i = Some [x; y; z]
   /\ (forall j, j <> Z.to_nat i -> <[Z.to_nat i := [x; y; z]]> t !! j = t !! j))
  /\ (length batch = 6%nat -> Forall triple batch ->
      check_point_validity batch = true ->
      set_leg_positions (ints batch) d
      = (inr tt, with_events [LegAngles batch] (with_table batch d))).
Proof.
  intros Hok Htable t. split.
  - intros Hi Hcheck.
    assert (Hlen : (Z.to_nat i < length (leg_positions (control d)))%nat) by lia.
    rewrite (set_leg_position_run i x y z d Hok Hi Hlen). cbv zeta. fold t.
    rewrite Hcheck. split; [reflexivity|]. split.
    + apply list_lookup_insert_eq. exact Hlen.
    + intros j Hj. apply list_lookup_insert_ne. congruence.
  - intros Hlen Hshape Hcheck.
    rewrite (proj1 (set_leg_positions_run batch d Hok Hlen Htable) Hshape), Hcheck.
    reflexivity.
Qed.

(** X16.  What [set_leg_positions] keeps when [int()] refuses an item: with
    manual control allowed, on a batch of six whose entries before [entry]
    are triples of integers and whose [entry] has three items of which
    [int()] refuses one, the call raises what [int()] raised, the rows
    before that entry stay written over the table, the later rows are the
    old ones, and nothing else has changed: the snapshot is not restored,
    the validator is not asked and [set_leg_angles] is not called. *)
Theorem refused_item_keeps_rows (d : HexapodDevice) (good : list (list Z))
    (entry : list coordinate) (rest : list (list coordinate)) (e : exn) :
  manual_allowed d ->
  (6 <= length (leg_positions (control d)))%nat ->
  length (ints good ++ entry :: rest) = 6%nat ->
  Forall triple good ->
  length entry = 3%nat -> first_refusal entry = Some e ->
  set_leg_positions (ints good ++ entry :: rest) d
  = (inl e,
     with_table (good ++ drop (length good) (leg_positions (control d)))%list d).
Proof.
  intros Hok Htable Hlen Hshape Hentry Hrefused.
  assert (Hgood : (length good <= 5)%nat).
  { rewrite length_app, length_ints in Hlen. cbn [length] in Hlen. lia. }
  rewrite (set_leg_positions_unfold _ d Hok Hlen). cbv zeta.
  rewrite positions_loop_then by (cbn; first [exact Hshape|lia]).
  unfold bind. rewrite (positions_body_refused _ _ entry e _ Hentry Hrefused).
  rewrite overwrite_spec by (cbn; lia). reflexivity.
Qed.




Lemma restrict_value_range (v lo hi : Z) :
  lo <= hi -> lo <= restrict_value v lo hi <= hi.
Proof.
  intros H. unfold restrict_value.
  destruct (Z.ltb_spec v lo); [lia|]. destruct (Z.ltb_spec hi v); lia.
Qed.

(** [_apply_calibration] raises, or returns three angles of [0, 180]; it
    never changes the device. *)
Lemma apply_calibration_cases (i a b c : Z) (d : HexapodDevice) :
  (exists e, _apply_calibration i a b c d = (inl e, d))
  \/ (exists sa sb sc,
        _apply_calibration i a b c d = (inr [sa; sb; sc], d)
        /\ 0 <= sa <= 180 /\ 0 <= sb <= 180 /\ 0 <= sc <= 180).
Proof.
  unfold _apply_calibration, bind, get, lift, ret.
  destruct (PySeq.getitem (calibration_angles (control d)) i) as [e|calib];
    [left; eauto|].
  destruct (i <? 3);
    (destruct (PySeq.getitem calib 0) as [e|c0]; [left; eauto|]);
    (destruct (PySeq.getitem calib 1) as [e|c1]; [left; eauto|]);
    (destruct (PySeq.getitem calib 2) as [e|c2]; [left; eauto|]);
    right; do 3 eexists; (split; [reflexivity|]);
    repeat split; apply restrict_value_range; lia.
Qed.

(** Whatever [set_leg_joint_angles] is given, the servo writes it makes
    carry angles of [0, 180], and it changes nothing else. *)
Lemma set_leg_joint_angles_events (i a b c : Z) (d : HexapodDevice) :
  exists events,
    snd (set_leg_joint_angles i a b c d) = with_events events d
    /\ Forall servo_in_range events.
Proof.
  destruct (_moving d || _ball_active d) eqn:Hflags.
  { exists []. rewrite with_events_nil.
    destruct (setters_blocked d i a b c [] [] Hflags) as (_ & _ & _ & _ & -> & _).
    split; [reflexivity|constructor]. }
  apply orb_false_elim in Hflags.
  destruct (Z_lt_dec i 0) as [Hneg|Hnonneg];
    [|destruct (Z_lt_dec 5 i) as [Hbig|Hsmall]].
  - exists []. rewrite with_events_nil.
    rewrite (proj2 (proj2 (index_refused d i a b c Hflags (or_introl Hneg)))).
    split; [reflexivity|constructor].
  - exists []. rewrite with_events_nil.
    rewrite (proj2 (proj2 (index_refused d i a b c Hflags (or_intror Hbig)))).
    split; [reflexivity|constructor].
  - assert (Hi : 0 <= i <= 5) by lia.
    unfold set_leg_joint_angles.
    rewrite (bind_inr _ _ _ _ _ (ensure_allowed d Hflags)).
    rewrite (bind_inr _ _ _ _ _ (assert_inside i d Hi)).
    destruct (apply_calibration_cases i a b c d)
      as [[e Hcal]|(sa & sb & sc & Hcal & Ha & Hb & Hc)].
    + rewrite (bind_inl _ _ _ _ _ Hcal). exists []. rewrite with_events_nil.
      split; [reflexivity|constructor].
    + rewrite (bind_inr _ _ _ _ _ Hcal).
      destruct (leg_channels i Hi) as (ca & cb & cc & Hrow).
      destruct (set_leg_servo_angles_run i sa sb sc d Hflags Hi)
        as (channels & Hget & Hrun).
      rewrite Hrow in Hget. inversion Hget; subst channels.
      exists (leg_writes [ca; cb; cc] sa sb sc).
      split; [rewrite Hrun; reflexivity|]. cbn [leg_writes].
      constructor; [exact Ha|]. constructor; [exact Hb|].
      constructor; [exact Hc|constructor].
Qed.

Lemma joint_loop_events (angles : list (list Z)) :
  forall (i : nat) (d : HexapodDevice),
    exists events,
      snd (for_enumerate joint_angles_body i angles d) = with_events events d
      /\ Forall servo_in_range events.
Proof.
  induction angles as [|p ps IH]; intros i d; cbn [for_enumerate].
  - exists []. rewrite with_events_nil. split; [reflexivity|constructor].
  - assert (Hbody : exists events,
              snd (joint_angles_body i p d) = with_events events d
              /\ Forall servo_in_range events).
    { unfold joint_angles_body.
      destruct p as [|a [|b [|c [|? ?]]]];
        try (exists []; rewrite with_events_nil; split; [reflexivity|constructor]).
      apply set_leg_joint_angles_events. }
    destruct Hbody as (events1 & Hstate & Hrange1).
    unfold bind. destruct (joint_angles_body i p d) as [[e|[]] d1]; cbn [snd] in *.
    + exists events1. split; assumption.
    + subst d1. destruct (IH (S i) (with_events events1 d)) as (events2 & -> & Hrange2).
      exists (events1 ++ events2)%list. rewrite with_events_app.
      split; [reflexivity|]. apply Forall_app. split; assumption.
Qed.

(** X15.  The calibrated setters never drive a servo outside [0, 180]:
    whatever the joint angles, the calibration table and the outcome, every
    servo write that [set_leg_joint_angles] and [set_leg_joint_angles_all]
    make carries an angle of [0, 180], and they change nothing but the
    record of servo writes. *)
Theorem joint_writes_in_range (d : HexapodDevice) (i a b c : Z)
    (batch : list (list Z)) :
  (exists events,
     snd (set_leg_joint_angles i a b c d) = with_events events d
     /\ Forall servo_in_range events)
  /\ (exists events,
        snd (set_leg_joint_angles_all batch d) = with_events events d
        /\ Forall servo_in_range events).
Proof.
  split; [apply set_leg_joint_angles_events|].
  unfold set_leg_joint_angles_all. unfold bind at 1. rewrite ensure_run.
  destruct (_moving d || _ball_active d).
  { exists []. rewrite with_events_nil. split; [reflexivity|constructor]. }
  destruct (negb (length batch =? 6)%nat).
  { exists []. rewrite with_events_nil. split; [reflexivity|constructor]. }
  apply joint_loop_events.
Qed.

End LegMore.


(** On the sample robot a batch of six targets within reach replaces the
    table and calls [set_leg_angles] on it. *)
Lemma accepted_position_writes_witness :
  set_leg_positions (ext := Sample.ext) (ints (repeat [150; 10; 0] 6)) Sample.device0
  = (inr tt,
     with_events [LegAngles (repeat [150; 10; 0] 6)]
       (with_table (repeat [150; 10; 0] 6) Sample.device0)).
Proof.
  destruct (accepted_position_writes (ext := Sample.ext) Sample.device0 0 0 0 0
              (repeat [150; 10; 0] 6)) as (_ & Hbatch).
  - split; reflexivity.
  - reflexivity.
  - apply Hbatch; [reflexivity|repeat constructor|reflexivity].
Defined.

(** On the sample robot a batch whose first entry was within reach and whose
    second entry starts with a text that is no number: the call raises the
    [ValueError] of [int()] and row 0 of the table stays overwritten. *)
Lemma refused_item_keeps_rows_witness :
  let r := set_leg_positions (ext := Sample.ext) Sample.not_a_number Sample.device0 in
  fst r = inl (ValueError "invalid literal for int() with base 10: 'x'")
  /\ leg_positions (control Sample.device0) = repeat [140; 0; 0] 6
  /\ leg_positions (control (snd r)) = [150; 0; 0] :: repeat [140; 0; 0] 5.
Proof.
  cbv zeta. unfold Sample.not_a_number.
  rewrite (refused_item_keeps_rows (ext := Sample.ext) Sample.device0 [[150; 0; 0]]
             [NotInt (ValueError "invalid literal for int() with base 10: 'x'");
              Int 0; Int 0]
             (ints (repeat [140; 0; 0] 4))
             (ValueError "invalid literal for int() with base 10: 'x'")).
  - repeat split.
  - split; reflexivity.
  - cbn. lia.
  - reflexivity.
  - repeat constructor.
  - reflexivity.
  - reflexivity.
Defined.

